(** * The log4js GELF appender (lib/index.js): model and properties

    A shallow embedding of [gelfAppender]: the level table, the custom-field
    merger [addCustomFields], the packet builder [preparePacket], the gzip
    callback of [app] with its 8192-byte limit, and [app.shutdown].

    The values a caller passes in (the data of an event, the custom fields)
    are trees: an object is the list of its own enumerable properties in
    insertion order (the order [Object.keys] and [JSON.stringify] walk), its
    prototype is [Object.prototype], and an array has its elements and no
    named property.  The two objects the code makes itself, [msg] and
    [levelMapping], start as [{}] and inherit from [Object.prototype]: an
    assignment to [msg] under the key [__proto__] reaches the prototype
    setter, and a read of a name [levelMapping] does not own gives the member
    of [Object.prototype] under that name, if there is one.  A string is the
    sequence of its UTF-8 bytes.  The one object the code shares with its
    caller, [config.customFields], lives in a store and is reached by
    reference.  Calls on the UDP socket, on [process], on [console] and on
    [debug] are recorded in a trace; what the network answers to a send is
    read from the world.  [zlib] and the arithmetic of numbers are taken
    through interfaces; [JSON.stringify] and [JSON.parse] are written out on
    compact text. *)

From Stdlib Require Import ZArith List String Ascii Bool Lia DecimalString.
From stdpp Require Import base option list strings gmap pretty.

#[local] Open Scope string_scope.
#[local] Open Scope list_scope.

(** ** Numbers

    A JavaScript number is an IEEE double.  The appender prints numbers and
    divides one by 1000, nothing else, so the model takes the number type with
    the operations the code reaches: integer literals, division, truthiness,
    the JSON text of a number ([None] for NaN and the infinities, which
    [JSON.stringify] writes as [null]) and the reading of a JSON number
    literal. *)
Class JsNumber (number : Type) := {
  num_of_Z : Z -> number;
  num_div : number -> number -> number;
  num_truthy : number -> bool;
  num_json : number -> option string;
  num_read : string -> option number;
}.

(** ** Outcomes: a call returns or throws *)
Inductive error :=
| TypeError
| ERR_SOCKET_DGRAM_NOT_RUNNING.

Inductive result (A : Type) :=
| Ok (a : A)
| Throw (e : error).
Arguments Ok {A} a.
Arguments Throw {A} e.

Definition result_bind {A B} (r : result A) (k : A -> result B) : result B :=
  match r with
  | Ok a => k a
  | Throw e => Throw e
  end.

Notation "x <-? r ; k" := (result_bind r (fun x => k))
  (at level 100, r at next level, right associativity, only parsing).

(** ** The syslog severities of lines 10-17 *)
Definition LOG_EMERG : Z := 0.
Definition LOG_ALERT : Z := 1.
Definition LOG_CRIT : Z := 2.
Definition LOG_ERROR : Z := 3.
Definition LOG_WARNING : Z := 4.
Definition LOG_NOTICE : Z := 5.
Definition LOG_INFO : Z := 6.
Definition LOG_DEBUG : Z := 7.

(** A log4js level.  Used as a property key it is converted with its
    [toString], which returns [levelStr]. *)
Record Level := mkLevel {
  levelStr : string;
  colour : string;
}.

(** The [levels] argument of [gelfAppender]: the seven entries it reads. *)
Record Levels := mkLevels {
  ALL : Level;
  TRACE : Level;
  DEBUG : Level;
  INFO : Level;
  WARN : Level;
  ERROR : Level;
  FATAL : Level;
}.

Definition level_keys (levels : Levels) : list string :=
  [levelStr (ALL levels); levelStr (TRACE levels); levelStr (DEBUG levels);
   levelStr (INFO levels); levelStr (WARN levels); levelStr (ERROR levels);
   levelStr (FATAL levels)].

(** [key.match(/^_/)] *)
Definition starts_with_underscore (key : string) : bool :=
  match key with
  | String c _ => Ascii.eqb c "_"
  | EmptyString => false
  end.

(** [key.match(/^_/) && key !== '_id'] *)
Definition accepted_key (key : string) : bool :=
  starts_with_underscore key && negb (String.eqb key "_id").

(** [x || d] on an optional string: the empty string is falsy. *)
Definition str_truthy (o : option string) : bool :=
  match o with
  | Some s => negb (String.eqb s "")
  | None => false
  end.

Definition str_or (o : option string) (d : string) : string :=
  match o with
  | Some s => if String.eqb s "" then d else s
  | None => d
  end.

(** ** zlib

    [zlib.gzip] hands its callback an error or the compressed bytes;
    [zlib.gunzip] gives back what [gzip] was given. *)
Class Zlib := {
  gzip : list Byte.byte -> string + list Byte.byte;
  gunzip : list Byte.byte -> option (list Byte.byte);
  gunzip_gzip : forall b packet, gzip b = inr packet -> gunzip packet = Some b;
}.

(** ** JSON text

    A string is its UTF-8 bytes, so a JSON text is a list of characters and
    [Buffer.from] keeps them as they are. *)
Definition text : Type := list ascii.

Definition dquote : ascii := ascii_of_nat 34.
Definition backslash : ascii := ascii_of_nat 92.

Definition hex_digit (n : N) : ascii :=
  if (n <? 10)%N then ascii_of_N (48 + n) else ascii_of_N (87 + n).


(** QuoteJSONString, one character at a time. *)
Definition escape_char (c : ascii) : text :=
  let n := N_of_ascii c in
  if Ascii.eqb c dquote then [backslash; dquote]
  else if Ascii.eqb c backslash then [backslash; backslash]
  else if (n =? 8)%N then [backslash; "b"%char]
  else if (n =? 12)%N then [backslash; "f"%char]
  else if (n =? 10)%N then [backslash; "n"%char]
  else if (n =? 13)%N then [backslash; "r"%char]
  else if (n =? 9)%N then [backslash; "t"%char]
  else if (n <? 32)%N
       then [backslash; "u"%char; "0"%char; "0"%char; hex_digit (n / 16); hex_digit (n mod 16)]
  else [c].

Definition quote (s : string) : text :=
  dquote :: flat_map escape_char (list_ascii_of_string s) ++ [dquote].







Definition join_comma (l : list text) : text :=
  match l with
  | [] => []
  | x :: l' => x ++ flat_map (fun y => ","%char :: y) l'
  end.

Definition null_text : text := list_ascii_of_string "null".
Definition true_text : text := list_ascii_of_string "true".
Definition false_text : text := list_ascii_of_string "false".

(** ** Property lists
    The own enumerable properties of an object, in insertion order. *)
Section PropertyLists.

Context {V : Type}.

Fixpoint obj_lookup (o : list (string * V)) (key : string) : option V :=
  match o with
  | [] => None
  | (k, v) :: o' => if String.eqb k key then Some v else obj_lookup o' key
  end.

(** Writing an own property: an existing one keeps its place, a new one goes
    last. *)
Fixpoint obj_set (key : string) (v : V) (o : list (string * V)) : list (string * V) :=
  match o with
  | [] => [(key, v)]
  | (k, x) :: o' =>
      if String.eqb k key then (k, v) :: o' else (k, x) :: obj_set key v o'
  end.

Definition obj_keys (o : list (string * V)) : list string := map fst o.

End PropertyLists.

(** ** Object.prototype

    What a plain object inherits.  Its members are functions, but for
    [__proto__], an accessor whose getter returns the prototype of the object
    it is read from: for an object made by [{}], [Object.prototype] itself.
    None of the members is enumerable. *)
Inductive builtin :=
| Object_prototype
| Object_function (name : string).

Definition Object_prototype_functions : list string :=
  ["constructor"; "__defineGetter__"; "__defineSetter__"; "hasOwnProperty";
   "__lookupGetter__"; "__lookupSetter__"; "isPrototypeOf"; "propertyIsEnumerable";
   "toString"; "valueOf"; "toLocaleString"].

(** The names under which a plain object inherits something. *)
Definition Object_prototype_members : list string :=
  "__proto__" :: Object_prototype_functions.

Section Model.

Context {number : Type} `{JsNumber number}.

(** ** Values *)
#[local] Unset Elimination Schemes.
Inductive value :=
| VUndefined
| VNull
| VBool (b : bool)
| VNum (n : number)
| VStr (s : string)
| VArr (items : list value)
| VObj (props : list (string * value)).
#[local] Set Elimination Schemes.

(** An object of the caller's: own enumerable properties, in insertion
    order. *)
Definition obj : Type := list (string * value).

(** [o[key]] for an own property: a missing one reads as [undefined]. *)
Definition obj_get (o : obj) (key : string) : value :=
  match obj_lookup o key with
  | Some v => v
  | None => VUndefined
  end.

Definition truthy (v : value) : bool :=
  match v with
  | VUndefined | VNull => false
  | VBool b => b
  | VNum n => num_truthy n
  | VStr s => negb (String.eqb s "")
  | VArr _ | VObj _ => true
  end.

(** The own enumerable properties of a value: those of an object, the
    elements of an array and the characters of a string under their decimal
    index, none for the other primitives. *)
Fixpoint string_chars (s : string) : list value :=
  match s with
  | EmptyString => []
  | String c s' => VStr (String c EmptyString) :: string_chars s'
  end.

Definition own_props (v : value) : obj :=
  match v with
  | VObj props => props
  | VArr items => imap (fun i x => (pretty i, x)) items
  | VStr s => imap (fun i x => (pretty i, x)) (string_chars s)
  | _ => []
  end.

(** [v.key] for a key that names no member of a built-in prototype ([GELF]
    and [stack] are the two the code reads): the own property.  Reading a
    property of [undefined] or [null] throws. *)
Definition get_prop (v : value) (key : string) : result value :=
  match v with
  | VUndefined | VNull => Throw TypeError
  | _ => Ok (obj_get (own_props v) key)
  end.

(** [Object.keys(v)] *)
Definition Object_keys (v : value) : result (list string) :=
  match v with
  | VUndefined | VNull => Throw TypeError
  | _ => Ok (obj_keys (own_props v))
  end.

(** [data[i]] on an array: out of range reads as [undefined]. *)
Definition index (data : list value) (i : nat) : value :=
  match data !! i with
  | Some v => v
  | None => VUndefined
  end.

(** ** Log events *)
Record LoggingEvent := mkEvent {
  categoryName : string;
  data : list value;
  level : Level;
}.

(** [loggingEvent.data.shift()] *)
Definition shift (ev : LoggingEvent) : LoggingEvent :=
  {| categoryName := categoryName ev; data := tail (data ev); level := level ev |}.

(** ** The level table, lines 30-37

    The seven entries, under the names of the caller's level objects.  The
    names are written as ordinary keys, which those of log4js are; the one
    name that is not, [__proto__], would hand its number to the prototype
    setter (see [assign] below) and get no entry. *)
Definition make_levelMapping (levels : Levels) : obj :=
  let levelMapping : obj := [] in
  let levelMapping := obj_set (levelStr (ALL levels)) (VNum (num_of_Z LOG_DEBUG)) levelMapping in
  let levelMapping := obj_set (levelStr (TRACE levels)) (VNum (num_of_Z LOG_DEBUG)) levelMapping in
  let levelMapping := obj_set (levelStr (DEBUG levels)) (VNum (num_of_Z LOG_DEBUG)) levelMapping in
  let levelMapping := obj_set (levelStr (INFO levels)) (VNum (num_of_Z LOG_INFO)) levelMapping in
  let levelMapping := obj_set (levelStr (WARN levels)) (VNum (num_of_Z LOG_WARNING)) levelMapping in
  let levelMapping := obj_set (levelStr (ERROR levels)) (VNum (num_of_Z LOG_ERROR)) levelMapping in
  let levelMapping := obj_set (levelStr (FATAL levels)) (VNum (num_of_Z LOG_CRIT)) levelMapping in
  levelMapping.

(** ** The appender's closure *)
Definition loc := nat.

Record Appender := mkAppender {
  levelMapping : obj;
  appendCategory : option string;
  host : string;
  port : number;
  hostname : string;
  defaultCustomFields : loc;
}.

(** ** The message object

    What a property of [msg] holds: a value of the caller's, or a member of
    [Object.prototype] that the read of the level table gave. *)
Inductive field :=
| Tree (v : value)
| Builtin (b : builtin).

Definition field_truthy (x : field) : bool :=
  match x with
  | Tree v => truthy v
  | Builtin _ => true
  end.

(** [msg]: its prototype (an object, or [null]) and its own properties. *)
Record Message := mkMessage {
  prototype_of : field;
  properties : list (string * field);
}.

(** [{}] *)
Definition empty_message : Message :=
  {| prototype_of := Builtin Object_prototype; properties := [] |}.

(** Whether an assignment to [msg.__proto__] finds the accessor of
    [Object.prototype].  It does not when [msg] has an own property of that
    name, when its prototype is [null], or when its prototype is an object of
    the caller's with an own property [__proto__]: that one is a data
    property, and the assignment is an ordinary one. *)
Definition reaches_proto_setter (msg : Message) : bool :=
  match obj_lookup (properties msg) "__proto__" with
  | Some _ => false
  | None =>
      match prototype_of msg with
      | Tree VNull => false
      | Tree v =>
          match obj_lookup (own_props v) "__proto__" with
          | Some _ => false
          | None => true
          end
      | Builtin _ => true
      end
  end.

(** The setter of [__proto__]: an object or [null] becomes the prototype, any
    other value is ignored. *)
Definition set_prototype (x : field) (msg : Message) : Message :=
  match x with
  | Tree VNull | Tree (VArr _) | Tree (VObj _) | Builtin _ =>
      {| prototype_of := x; properties := properties msg |}
  | Tree _ => msg
  end.

(** [msg[key] = x].  Under any other key than [__proto__] the property is
    written on [msg] itself: what [msg] can inherit under such a key is a
    writable data property. *)
Definition assign (key : string) (x : field) (msg : Message) : Message :=
  if String.eqb key "__proto__" && reaches_proto_setter msg then set_prototype x msg
  else {| prototype_of := prototype_of msg; properties := obj_set key x (properties msg) |}.

(** [msg.timestamp]: the own property, else the own property of the
    prototype that a [__proto__] field installed.  No built-in prototype has
    a member of that name. *)
Definition get_timestamp (msg : Message) : field :=
  match obj_lookup (properties msg) "timestamp" with
  | Some x => x
  | None =>
      match prototype_of msg with
      | Tree v => Tree (obj_get (own_props v) "timestamp")
      | Builtin _ => Tree VUndefined
      end
  end.

(** [Object.prototype[key]], read from an object made by [{}]. *)
Definition Object_prototype_get (key : string) : field :=
  if String.eqb key "__proto__" then Builtin Object_prototype
  else if existsb (String.eqb key) Object_prototype_functions
       then Builtin (Object_function key)
  else Tree VUndefined.

(** [levelMapping[key]]: the own entry, else what [Object.prototype] has
    under the name, else [undefined]. *)
Definition table_get (table : obj) (key : string) : field :=
  match obj_lookup table key with
  | Some v => Tree v
  | None => Object_prototype_get key
  end.

(** ** addCustomFields, lines 64-92 *)

(** The [forEach] of lines 66-71 and 82-87: every accepted key of [src] is
    assigned into [msg]. *)
Definition copy_fields (src : obj) (msg : Message) : Message :=
  fold_left
    (fun msg key => if accepted_key key then assign key (Tree (obj_get src key)) msg else msg)
    (obj_keys src) msg.

(** Lines 73-75: [if (appendCategory)] passes a non-empty string. *)
Definition append_category (a : Appender) (ev : LoggingEvent) (msg : Message) : Message :=
  match appendCategory a with
  | Some name =>
      if String.eqb name "" then msg
      else assign ("_" +:+ name) (Tree (VStr (categoryName ev))) msg
  | None => msg
  end.

(** [defaults] is the object [defaultCustomFields] refers to when the call is
    made.  The event and [msg] are mutated in place: the function returns
    both as it leaves them. *)
Definition addCustomFields (a : Appender) (defaults : obj)
    (loggingEvent : LoggingEvent) (msg : Message) : result (LoggingEvent * Message) :=
  let msg := copy_fields defaults msg in
  let msg := append_category a loggingEvent msg in
  let firstData := index (data loggingEvent) 0 in
  if truthy firstData then
    gelf <-? get_prop firstData "GELF";
    if negb (truthy gelf) then Ok (loggingEvent, msg)
    else
      keys <-? Object_keys firstData;
      let msg :=
        fold_left
          (fun msg key =>
             if accepted_key key
             then assign key (Tree (obj_get (own_props firstData) key)) msg
             else msg)
          keys msg in
      Ok (shift loggingEvent, msg)
  else Ok (loggingEvent, msg).

(** ** preparePacket, lines 94-110

    [now] is the reading of [new Date().getTime()], in milliseconds. *)
Definition preparePacket (a : Appender) (defaults : obj) (now : Z)
    (loggingEvent : LoggingEvent) : result (LoggingEvent * Message) :=
  let msg := empty_message in
  merged <-? addCustomFields a defaults loggingEvent msg;
  let '(loggingEvent, msg) := merged in
  let msg := assign "short_message" (Tree (index (data loggingEvent) 0)) msg in
  msg <-? (if truthy (index (data loggingEvent) 1)
           then stack <-? get_prop (index (data loggingEvent) 1) "stack";
                Ok (assign "full_message" (Tree stack) msg)
           else Ok (assign "full_message" (Tree (VStr "")) msg));
  let msg := assign "version" (Tree (VStr "1.1")) msg in
  let msg :=
    assign "timestamp"
      (if field_truthy (get_timestamp msg) then get_timestamp msg
       else Tree (VNum (num_div (num_of_Z now) (num_of_Z 1000))))
      msg in
  let msg := assign "host" (Tree (VStr (hostname a))) msg in
  let msg := assign "level" (table_get (levelMapping a) (levelStr (level loggingEvent))) msg in
  Ok (loggingEvent, msg).

(** ** The world outside the closure

    What the appender does to its surroundings is recorded call by call.
    [send_results] is what the network will answer to the sends to come, in
    their order: [None] for a datagram that went out, [Some err] for an
    error; past its end every datagram goes out. *)
Inductive debug_message :=
| DebugCreate
| DebugShutdown
| DebugSending
| DebugTooLarge (length : nat)
| DebugLength (length : nat).

Inductive call :=
| debug (m : debug_message)
| console_error (what : string)
| dgram_createSocket
| client_send_call (packet : list Byte.byte) (offset length : nat) (port : number) (host : string)
| client_close_call (cb : option nat)
| process_on_exit
| process_removeListener_exit.

Record World := mkWorld {
  heap : gmap loc obj;
  os_hostname : string;
  socket_running : bool;
  exit_listeners : nat;
  trace : list call;
  send_results : list (option string);
}.

(** A computation reads and changes the world, and returns or throws. *)
Definition M (A : Type) : Type := World -> result A * World.

Definition ret {A} (a : A) : M A := fun w => (Ok a, w).

Definition bind {A B} (m : M A) (k : A -> M B) : M B :=
  fun w =>
    match m w with
    | (Ok a, w') => k a w'
    | (Throw e, w') => (Throw e, w')
    end.

Notation "x <-- m ; k" := (bind m (fun x => k))
  (at level 100, m at next level, right associativity, only parsing).

Definition lift {A} (r : result A) : M A := fun w => (r, w).

Definition record (c : call) : M unit :=
  fun w =>
    (Ok tt,
     {| heap := heap w; os_hostname := os_hostname w;
        socket_running := socket_running w; exit_listeners := exit_listeners w;
        trace := trace w ++ [c]; send_results := send_results w |}).

Definition set_heap (h : gmap loc obj) : M unit :=
  fun w =>
    (Ok tt,
     {| heap := h; os_hostname := os_hostname w;
        socket_running := socket_running w; exit_listeners := exit_listeners w;
        trace := trace w; send_results := send_results w |}).

Definition set_socket_running (b : bool) : M unit :=
  fun w =>
    (Ok tt,
     {| heap := heap w; os_hostname := os_hostname w;
        socket_running := b; exit_listeners := exit_listeners w;
        trace := trace w; send_results := send_results w |}).

Definition set_exit_listeners (n : nat) : M unit :=
  fun w =>
    (Ok tt,
     {| heap := heap w; os_hostname := os_hostname w;
        socket_running := socket_running w; exit_listeners := n;
        trace := trace w; send_results := send_results w |}).

Definition set_send_results (l : list (option string)) : M unit :=
  fun w =>
    (Ok tt,
     {| heap := heap w; os_hostname := os_hostname w;
        socket_running := socket_running w; exit_listeners := exit_listeners w;
        trace := trace w; send_results := l |}).

(** *** The dgram socket (Node's [dgram.Socket])

    [send] and [close] first check that the socket still has its handle and
    throw [ERR_SOCKET_DGRAM_NOT_RUNNING] when it was closed before.  A send
    that was accepted ends by calling its callback, with the error if there
    was one; the model runs the callback at once. *)
Definition dgram_createSocket_udp4 : M unit :=
  _ <-- record dgram_createSocket;
  set_socket_running true.

Definition client_send (packet : list Byte.byte) (offset length : nat)
    (port : number) (host : string) (callback : option string -> M unit) : M unit :=
  _ <-- record (client_send_call packet offset length port host);
  fun w =>
    if socket_running w then
      (_ <-- set_send_results (tail (send_results w));
       callback (match send_results w with
                 | result :: _ => result
                 | [] => None
                 end)) w
    else (Throw ERR_SOCKET_DGRAM_NOT_RUNNING, w).

Definition client_close (cb : option nat) : M unit :=
  _ <-- record (client_close_call cb);
  fun w =>
    if socket_running w then set_socket_running false w
    else (Throw ERR_SOCKET_DGRAM_NOT_RUNNING, w).

(** [process.on('exit', exit)] and [process.removeListener('exit', exit)]:
    removing a listener that is not installed does nothing. *)
Definition process_on : M unit :=
  _ <-- record process_on_exit;
  fun w => set_exit_listeners (S (exit_listeners w)) w.

Definition process_removeListener : M unit :=
  _ <-- record process_removeListener_exit;
  fun w => set_exit_listeners (pred (exit_listeners w)) w.

(** ** gelfAppender, lines 29-56 *)
Record Config := mkConfig {
  config_host : option string;
  config_port : option number;
  config_hostname : option string;
  config_facility : option string;
  config_customFields : option loc;
  config_appendCategory : option string;
}.

Definition gelfAppender (config : Config) (levels : Levels) : M Appender :=
  let levelMapping := make_levelMapping levels in
  _ <-- record (debug DebugCreate);
  let appendCategory :=
    if str_truthy (config_appendCategory config) then config_appendCategory config else None in
  let host := str_or (config_host config) "localhost" in
  let port :=
    match config_port config with
    | Some p => if num_truthy p then p else num_of_Z 12201
    | None => num_of_Z 12201
    end in
  fun w =>
  let hostname := str_or (config_hostname config) (os_hostname w) in
  let facility := config_facility config in
  let customFields := config_customFields config in
  (defaultCustomFields <--
     match customFields with
     | Some l => ret l
     | None => fun w => let l := fresh (dom (heap w)) in
                        (_ <-- set_heap (<[l := []]> (heap w)); ret l) w
     end;
   _ <-- (if str_truthy facility
          then fun w =>
                 set_heap
                   (<[defaultCustomFields :=
                        obj_set "_facility" (VStr (str_or facility ""))
                          (default ([] : obj) (heap w !! defaultCustomFields))]> (heap w)) w
          else ret tt);
   _ <-- dgram_createSocket_udp4;
   _ <-- process_on;
   ret {| levelMapping := levelMapping; appendCategory := appendCategory;
          host := host; port := port; hostname := hostname;
          defaultCustomFields := defaultCustomFields |}) w.

(** ** configure, lines 145-151: the layout it picks is not used. *)
Definition configure (config : Config) (levels : Levels) : M Appender :=
  gelfAppender config levels.

(** ** sendPacket, lines 112-119 *)
Definition sendPacket (a : Appender) (packet : list Byte.byte) : M unit :=
  _ <-- record (debug DebugSending);
  client_send packet 0 (length packet) (port a) (host a)
    (fun err =>
       match err with
       | Some e => record (console_error e)
       | None => ret tt
       end).

(** ** The callback handed to [zlib.gzip], lines 123-134 *)
Inductive gzip_outcome :=
| gzip_err (stack : string)
| gzip_packet (packet : list Byte.byte).

Definition gzip_callback (a : Appender) (r : gzip_outcome) : M unit :=
  match r with
  | gzip_err stack => record (console_error stack)
  | gzip_packet packet =>
      if (8192 <? Z.of_nat (length packet))%Z then record (debug (DebugTooLarge (length packet)))
      else
        _ <-- record (debug (DebugLength (length packet)));
        sendPacket a packet
  end.

(** ** app.shutdown, lines 136-140 *)
Definition shutdown (cb : option nat) : M unit :=
  _ <-- record (debug DebugShutdown);
  _ <-- client_close cb;
  process_removeListener.

(** ** JSON.stringify and JSON.parse *)

(** A property whose value has no JSON text (an [undefined] one) is left
    out of its object. *)
Fixpoint members (l : list (string * option text)) : list text :=
  match l with
  | [] => []
  | (k, Some t) :: l' => (quote k ++ ":"%char :: t) :: members l'
  | (_, None) :: l' => members l'
  end.

(** [JSON.stringify(v)]: [None] where JavaScript returns [undefined]. *)
Fixpoint JSON_stringify (v : value) : option text :=
  match v with
  | VUndefined => None
  | VNull => Some null_text
  | VBool b => Some (if b then true_text else false_text)
  | VNum n =>
      Some (match num_json n with
            | Some s => list_ascii_of_string s
            | None => null_text
            end)
  | VStr s => Some (quote s)
  | VArr items =>
      Some ("["%char ::
            join_comma
              (map (fun x => match JSON_stringify x with
                             | Some t => t
                             | None => null_text
                             end) items)
            ++ ["]"%char])
  | VObj props =>
      Some ("{"%char ::
            join_comma (members (map (fun p => (fst p, JSON_stringify (snd p))) props))
            ++ ["}"%char])
  end.




(** [Buffer.from(text)] and [buffer.toString()] *)
Definition Buffer_from (s : text) : list Byte.byte := map byte_of_ascii s.

(** What a JSON round trip leaves of a value: an [undefined] property is
    gone, an [undefined] element and a number without JSON text are [null]. *)
Fixpoint json_image (v : value) : value :=
  match v with
  | VNum n => match num_json n with Some _ => VNum n | None => VNull end
  | VArr items =>
      VArr (map (fun x => match x with VUndefined => VNull | _ => json_image x end) items)
  | VObj props =>
      VObj (flat_map (fun p => match snd p with
                               | VUndefined => []
                               | _ => [(fst p, json_image (snd p))]
                               end) props)
  | _ => v
  end.



(** The JSON text of a property of the message: a function has none, and
    [Object.prototype] has no enumerable property to write. *)
Definition field_text (x : field) : option text :=
  match x with
  | Tree v => JSON_stringify v
  | Builtin Object_prototype => Some ["{"%char; "}"%char]
  | Builtin (Object_function _) => None
  end.

(** [JSON.stringify(message)]: the own properties, whatever the prototype. *)
Definition stringify_message (message : Message) : text :=
  "{"%char ::
  join_comma (members (map (fun p => (fst p, field_text (snd p))) (properties message)))
  ++ ["}"%char].

Context `{Zlib}.

(** ** app, lines 121-135

    The synchronous part builds the message and the buffer handed to
    [zlib.gzip]; the callback runs when compression is done, which the model
    does at once. *)
Definition app (a : Appender) (now : Z) (loggingEvent : LoggingEvent) : M LoggingEvent :=
  fun w =>
    (built <-- lift (preparePacket a (default ([] : obj) (heap w !! defaultCustomFields a)) now loggingEvent);
     let '(loggingEvent, message) := built in
     _ <-- gzip_callback a
             (match gzip (Buffer_from (stringify_message message)) with
              | inl stack => gzip_err stack
              | inr packet => gzip_packet packet
              end);
     ret loggingEvent) w.


(** The bytes [app] puts on the wire for a message. *)
Definition encode (message : Message) : option (list Byte.byte) :=
  match gzip (Buffer_from (stringify_message message)) with
  | inr packet => Some packet
  | inl _ => None
  end.

End Model.

Arguments value number : clear implicits.
Arguments obj number : clear implicits.
Arguments field number : clear implicits.
Arguments Message number : clear implicits.
Arguments LoggingEvent number : clear implicits.
Arguments Appender number : clear implicits.
Arguments Config number : clear implicits.
Arguments World number : clear implicits.
Arguments call number : clear implicits.
Arguments M number A : clear implicits.

(** * Derived forms

    Closed forms of the functions above and the notions the properties are
    stated with. *)

Section Forms.

Context {number : Type} `{JsNumber number}.

(** The first data item carries per-event fields: it is truthy and so is its
    [GELF] property (lines 80-81). *)
Definition is_carrier (v : value number) : bool :=
  truthy v && match get_prop v "GELF" with
              | Ok g => truthy g
              | Throw _ => false
              end.

(** [msg.full_message], lines 99-103. *)
Definition full_message_of (second : value number) : value number :=
  if truthy second then obj_get (own_props second) "stack" else VStr "".

(** The assignments of lines 97-108 on the merged message. *)
Definition finish_packet (a : Appender number) (now : Z) (ev : LoggingEvent number)
    (msg : Message number) : Message number :=
  let msg := assign "short_message" (Tree (index (data ev) 0)) msg in
  let msg := assign "full_message" (Tree (full_message_of (index (data ev) 1))) msg in
  let msg := assign "version" (Tree (VStr "1.1")) msg in
  let msg :=
    assign "timestamp"
      (if field_truthy (get_timestamp msg) then get_timestamp msg
       else Tree (VNum (num_div (num_of_Z now) (num_of_Z 1000))))
      msg in
  let msg := assign "host" (Tree (VStr (hostname a))) msg in
  assign "level" (table_get (levelMapping a) (levelStr (level ev))) msg.

(** A message made by [{}] that no [__proto__] field has touched. *)
Definition untouched (msg : Message number) : Prop :=
  prototype_of msg = Builtin Object_prototype
  /\ obj_lookup (properties msg) "__proto__" = None.

(** The timestamp a message inherits: the own [timestamp] of the object a
    [__proto__] field made its prototype, [undefined] without one. *)
Definition inherited_timestamp (msg : Message number) : value number :=
  match prototype_of msg with
  | Tree v => obj_get (own_props v) "timestamp"
  | Builtin _ => VUndefined
  end.

(** What the JSON round trip leaves of a property of the message: nothing of
    an [undefined] one or a function, an empty object of [Object.prototype],
    the image of any other value. *)
Definition field_image (x : field number) : option (value number) :=
  match x with
  | Tree VUndefined => None
  | Tree v => Some (json_image v)
  | Builtin Object_prototype => Some (VObj [])
  | Builtin (Object_function _) => None
  end.




(** A name under which a plain object inherits a member. *)
Definition inherited_name (name : string) : bool :=
  existsb (String.eqb name) Object_prototype_members.










(** The keys [preparePacket] writes itself, in the order of lines 97-108. *)
Definition packet_keys : list string :=
  ["short_message"; "full_message"; "version"; "timestamp"; "host"; "level"].

(** The field the category-append option writes, if it writes one. *)
Definition category_field (a : Appender number) (ev : LoggingEvent number) (key : string)
  : option (value number) :=
  match appendCategory a with
  | Some name =>
      if negb (String.eqb name "") && String.eqb key ("_" +:+ name)
      then Some (VStr (categoryName ev))
      else None
  | None => None
  end.

(** The value a source object gives for a key the filter accepts. *)
Definition accepted_field (src : obj number) (key : string) : option (value number) :=
  match obj_lookup src key with
  | Some v => if accepted_key key then Some v else None
  | None => None
  end.

(** A character between ["0"] and ["9"]. *)
Definition is_digit (c : ascii) : bool :=
  (48 <=? N_of_ascii c)%N && (N_of_ascii c <=? 57)%N.

Definition starts_with_digit (s : string) : bool :=
  match s with
  | String c _ => is_digit c
  | EmptyString => false
  end.

(** The [client.send] calls of a trace, by their packets. *)
Definition send_calls (t : list (call number)) : list (list Byte.byte) :=
  flat_map (fun c => match c with client_send_call packet _ _ _ _ => [packet] | _ => [] end) t.

End Forms.

(** * Concrete data

    The integers as a number system (division is the integer quotient, exact
    on the clock readings used below), a codec that stores the bytes as they
    are, the level table of log4js and a bare configuration: enough to run
    the model on events. *)

Definition Z_json (z : Z) : option string := Some (NilZero.string_of_int (Z.to_int z)).

Definition Z_read (s : string) : option Z := option_map Z.of_int (NilZero.int_of_string s).

#[export] Instance JsZ : JsNumber Z := {|
  num_of_Z z := z;
  num_div := Z.div;
  num_truthy z := negb (z =? 0)%Z;
  num_json := Z_json;
  num_read := Z_read;
|}.

#[export] Instance zlib_stored : Zlib := {|
  gzip b := inr b;
  gunzip b := Some b;
  gunzip_gzip := ltac:(intros b p [= ->]; reflexivity);
|}.

Definition log4js_levels : Levels := {|
  ALL := mkLevel "ALL" "grey";
  TRACE := mkLevel "TRACE" "blue";
  DEBUG := mkLevel "DEBUG" "cyan";
  INFO := mkLevel "INFO" "green";
  WARN := mkLevel "WARN" "yellow";
  ERROR := mkLevel "ERROR" "red";
  FATAL := mkLevel "FATAL" "magenta";
|}.

Definition OFF : Level := mkLevel "OFF" "grey".

Definition bare_config : Config Z := {|
  config_host := None;
  config_port := None;
  config_hostname := None;
  config_facility := None;
  config_customFields := None;
  config_appendCategory := None;
|}.

Definition start_world : World Z := {|
  heap := ∅;
  os_hostname := "box";
  socket_running := false;
  exit_listeners := 0;
  trace := [];
  send_results := [];
|}.

(** What [gelfAppender bare_config log4js_levels] returns in [start_world],
    and the world it leaves. *)
Definition bare_appender : Appender Z := {|
  levelMapping :=
    [("ALL", VNum 7%Z); ("TRACE", VNum 7%Z); ("DEBUG", VNum 7%Z); ("INFO", VNum 6%Z);
     ("WARN", VNum 4%Z); ("ERROR", VNum 3%Z); ("FATAL", VNum 2%Z)];
  appendCategory := None;
  host := "localhost";
  port := 12201%Z;
  hostname := "box";
  defaultCustomFields := 0;
|}.

Definition bare_world : World Z := {|
  heap := {[ 0 := [] ]};
  os_hostname := "box";
  socket_running := true;
  exit_listeners := 1;
  trace := [debug DebugCreate; dgram_createSocket; process_on_exit];
  send_results := [];
|}.

(** A configuration with a facility, a [customFields] object at location 1
    of the caller's store, and the category appended under [id]. *)
Definition id_config : Config Z := {|
  config_host := None;
  config_port := None;
  config_hostname := None;
  config_facility := Some "nodejs-server";
  config_customFields := Some 1;
  config_appendCategory := Some "id";
|}.

Definition caller_world : World Z := {|
  heap := {[ 1 := [("_a", VNum 1%Z); ("_id", VNum 99%Z)] ]};
  os_hostname := "box";
  socket_running := false;
  exit_listeners := 0;
  trace := [];
  send_results := [];
|}.

(** [logger.info("hello")] *)
Definition hello_event : LoggingEvent Z :=
  {| categoryName := "app"; data := [VStr "hello"]; level := INFO log4js_levels |}.

(** [logger.warn({GELF: true, _x: 5}, "msg")] *)
Definition gelf_event : LoggingEvent Z :=
  {| categoryName := "app";
     data := [VObj [("GELF", VBool true); ("_x", VNum 5%Z)]; VStr "msg"];
     level := WARN log4js_levels |}.


(** [logger.info("hello", 0)] *)
Definition count_event : LoggingEvent Z :=
  {| categoryName := "app"; data := [VStr "hello"; VNum 0%Z]; level := INFO log4js_levels |}.



(** [logger.info("hello", "detail")] *)
Definition detail_event : LoggingEvent Z :=
  {| categoryName := "app"; data := [VStr "hello"; VStr "detail"]; level := INFO log4js_levels |}.

(** The packet [preparePacket] builds from [hello_event] at 1700000000000 ms,
    and its JSON text. *)
Definition hello_packet : Message Z := {|
  prototype_of := Builtin Object_prototype;
  properties :=
    [("short_message", Tree (VStr "hello")); ("full_message", Tree (VStr ""));
     ("version", Tree (VStr "1.1")); ("timestamp", Tree (VNum 1700000000%Z));
     ("host", Tree (VStr "box")); ("level", Tree (VNum 6%Z))];
|}.

Definition hello_text : text := stringify_message hello_packet.

(** [bare_world] with a network that fails the next send. *)
Definition failing_world : World Z := {|
  heap := {[ 0 := [] ]};
  os_hostname := "box";
  socket_running := true;
  exit_listeners := 1;
  trace := [debug DebugCreate; dgram_createSocket; process_on_exit];
  send_results := [Some "Error: getaddrinfo ENOTFOUND"];
|}.

(** A level log4js does not have, named like a member every object
    inherits. *)
Definition constructor_level : Level := mkLevel "constructor" "grey".

(** [logger.log(constructor_level, "hello")] *)
Definition constructor_event : LoggingEvent Z :=
  {| categoryName := "app"; data := [VStr "hello"]; level := constructor_level |}.

(** [logger.warn(JSON.parse('{"GELF": true, "__proto__": {"timestamp": 5}}'), "msg")]:
    a carrier with an own property [__proto__]. *)
Definition proto_event : LoggingEvent Z :=
  {| categoryName := "app";
     data := [VObj [("GELF", VBool true); ("__proto__", VObj [("timestamp", VNum 5%Z)])];
              VStr "msg"];
     level := WARN log4js_levels |}.

(** A codec whose [gzip] reports an error for every buffer. *)
Definition zlib_failing : Zlib := {|
  gzip b := inl "Error: zlib";
  gunzip b := None;
  gunzip_gzip := ltac:(intros b p Hp; discriminate Hp);
|}.

(** Compressed packets of 8192 and of 8193 bytes. *)
Definition packet_8192 : list Byte.byte := repeat Byte.x00 (Z.to_nat 8192).
Definition packet_8193 : list Byte.byte := repeat Byte.x00 (Z.to_nat 8193).

(** The [client.close] calls of a trace, by their callbacks. *)
Definition close_calls {number : Type} (t : list (call number)) : list (option nat) :=
  flat_map (fun c => match c with client_close_call cb => [cb] | _ => [] end) t.

(** * Properties *)

Section Properties.

Context {number : Type} `{JsNumber number} `{Zlib}.

(** ** Objects *)

Lemma obj_lookup_set_same {V} (o : list (string * V)) key v :
  obj_lookup (obj_set key v o) key = Some v.
Proof.
  induction o as [|[k x] o IH]; simpl.
  - now rewrite String.eqb_refl.
  - destruct (String.eqb k key) eqn:E; simpl; rewrite E; auto.
Qed.

Lemma obj_lookup_set_other {V} (o : list (string * V)) key key' v :
  key <> key' -> obj_lookup (obj_set key v o) key' = obj_lookup o key'.
Proof.
  intros Hne. induction o as [|[k x] o IH]; simpl.
  - destruct (String.eqb key key') eqn:E; auto.
    apply String.eqb_eq in E. contradiction.
  - destruct (String.eqb k key) eqn:E; simpl.
    + apply String.eqb_eq in E. subst k.
      destruct (String.eqb key key') eqn:E'; auto.
      apply String.eqb_eq in E'. contradiction.
    + destruct (String.eqb k key'); auto.
Qed.

Lemma obj_get_set_same (o : obj number) key v : obj_get (obj_set key v o) key = v.
Proof. unfold obj_get. now rewrite obj_lookup_set_same. Qed.

Lemma obj_get_set_other (o : obj number) key key' v :
  key <> key' -> obj_get (obj_set key v o) key' = obj_get o key'.
Proof. intros. unfold obj_get. now rewrite obj_lookup_set_other. Qed.



Lemma obj_In_lookup {V} (o : list (string * V)) key : In key (obj_keys o) -> exists v, obj_lookup o key = Some v.
Proof.
  induction o as [|[k x] o IH]; simpl; [tauto|].
  intros [->|Hin].
  - rewrite String.eqb_refl. eauto.
  - destruct (String.eqb k key); eauto.
Qed.

Lemma obj_keys_set {V} (o : list (string * V)) key v :
  obj_keys (obj_set key v o) =
  match obj_lookup o key with Some _ => obj_keys o | None => obj_keys o ++ [key] end.
Proof.
  induction o as [|[k x] o IH]; simpl; auto.
  destruct (String.eqb k key) eqn:E; simpl; auto.
  rewrite IH. now destruct (obj_lookup o key).
Qed.

Lemma obj_set_NoDup {V} (o : list (string * V)) key v :
  NoDup (obj_keys o) -> NoDup (obj_keys (obj_set key v o)).
Proof.
  intros Hnd. rewrite obj_keys_set.
  destruct (obj_lookup o key) eqn:E; auto.
  apply NoDup_app. repeat split; auto.
  - intros x Hx Hx'. apply list_elem_of_In in Hx, Hx'. destruct Hx' as [<-|[]].
    apply obj_In_lookup in Hx. destruct Hx as [v' Hv']. congruence.
  - apply NoDup_singleton.
Qed.

(** ** The field filter *)

Lemma accepted_key_iff key :
  accepted_key key = true <-> starts_with_underscore key = true /\ key <> "_id".
Proof.
  unfold accepted_key. rewrite andb_true_iff, negb_true_iff.
  split; intros [H1 H2]; split; auto.
  - intros ->. discriminate.
  - now apply String.eqb_neq.
Qed.

Lemma obj_lookup_existsb {V} (o : list (string * V)) key :
  existsb (String.eqb key) (obj_keys o) = match obj_lookup o key with Some _ => true | None => false end.
Proof.
  induction o as [|[k x] o IH]; simpl; auto.
  rewrite (String.eqb_sym key k). destruct (String.eqb k key); simpl; auto.
Qed.

(** ** Assignments to the message *)

Lemma assign_properties key x (msg : Message number) :
  key <> "__proto__" ->
  properties (assign key x msg) = obj_set key x (properties msg).
Proof. intros Hk. unfold assign. apply String.eqb_neq in Hk. now rewrite Hk. Qed.

Lemma assign_prototype key x (msg : Message number) :
  key <> "__proto__" -> prototype_of (assign key x msg) = prototype_of msg.
Proof. intros Hk. unfold assign. apply String.eqb_neq in Hk. now rewrite Hk. Qed.

Lemma set_prototype_properties x (msg : Message number) :
  properties (set_prototype x msg) = properties msg.
Proof. destruct x as [[]|]; reflexivity. Qed.

(** Under a key other than [__proto__] a message holds what was last
    assigned under it. *)
Lemma assign_lookup key key' x (msg : Message number) :
  key' <> "__proto__" ->
  obj_lookup (properties (assign key x msg)) key'
  = if String.eqb key key' then Some x else obj_lookup (properties msg) key'.
Proof.
  intros Hk'. destruct (String.eqb key "__proto__") eqn:E.
  - apply String.eqb_eq in E. subst key.
    assert (Hne : String.eqb "__proto__" key' = false) by (apply String.eqb_neq; congruence).
    rewrite Hne. unfold assign. rewrite String.eqb_refl.
    destruct (reaches_proto_setter msg); cbn [andb].
    + now rewrite set_prototype_properties.
    + cbn [properties]. apply obj_lookup_set_other. congruence.
  - apply String.eqb_neq in E. rewrite assign_properties by exact E.
    destruct (String.eqb key key') eqn:E'.
    + apply String.eqb_eq in E'. subst key'. apply obj_lookup_set_same.
    + apply String.eqb_neq in E'. now apply obj_lookup_set_other.
Qed.

Lemma assign_NoDup key x (msg : Message number) :
  NoDup (obj_keys (properties msg)) -> NoDup (obj_keys (properties (assign key x msg))).
Proof.
  intros Hnd. unfold assign.
  destruct (String.eqb key "__proto__" && reaches_proto_setter msg).
  - now rewrite set_prototype_properties.
  - cbn [properties]. now apply obj_set_NoDup.
Qed.

Lemma untouched_reaches (msg : Message number) :
  untouched msg -> reaches_proto_setter msg = true.
Proof. intros [Hp Ho]. unfold reaches_proto_setter. now rewrite Ho, Hp. Qed.

Lemma assign_untouched key x (msg : Message number) :
  key <> "__proto__" -> untouched msg -> untouched (assign key x msg).
Proof.
  intros Hk [Hp Ho]. split.
  - now rewrite assign_prototype.
  - rewrite assign_properties by exact Hk. now rewrite obj_lookup_set_other.
Qed.

(** A primitive assigned under [__proto__] leaves such a message as it
    is. *)
Lemma assign_proto_string s (msg : Message number) :
  untouched msg -> assign "__proto__" (Tree (VStr s)) msg = msg.
Proof.
  intros Hu. unfold assign. rewrite String.eqb_refl, (untouched_reaches _ Hu). reflexivity.
Qed.

(** An object assigned under [__proto__] becomes the prototype and makes no
    field. *)
Lemma assign_proto_object props (msg : Message number) :
  untouched msg ->
  assign "__proto__" (Tree (VObj props)) msg
  = {| prototype_of := Tree (VObj props); properties := properties msg |}.
Proof.
  intros Hu. unfold assign. rewrite String.eqb_refl, (untouched_reaches _ Hu). reflexivity.
Qed.

Lemma fold_copy_lookup (get : string -> value number) (keys : list string)
    (msg : Message number) key :
  key <> "__proto__" ->
  obj_lookup
    (properties
       (fold_left (fun msg k => if accepted_key k then assign k (Tree (get k)) msg else msg)
          keys msg))
    key =
  if accepted_key key && existsb (String.eqb key) keys then Some (Tree (get key))
  else obj_lookup (properties msg) key.
Proof.
  intros Hk. revert msg. induction keys as [|k keys IH]; intros msg; simpl.
  - now rewrite andb_false_r.
  - rewrite IH. clear IH.
    destruct (accepted_key key) eqn:Ha; simpl.
    + destruct (existsb (String.eqb key) keys); [now rewrite orb_true_r|].
      rewrite orb_false_r. destruct (String.eqb key k) eqn:E.
      * apply String.eqb_eq in E. subst k. rewrite Ha.
        rewrite assign_lookup by exact Hk. now rewrite String.eqb_refl.
      * destruct (accepted_key k); auto.
        rewrite assign_lookup by exact Hk. now rewrite String.eqb_sym, E.
    + destruct (accepted_key k) eqn:Hak; auto.
      rewrite assign_lookup by exact Hk.
      destruct (String.eqb k key) eqn:E; [|reflexivity].
      apply String.eqb_eq in E. congruence.
Qed.

(** What the loop of lines 66-71 (and 82-87) leaves in [msg] under a key
    other than [__proto__]. *)
Lemma copy_fields_lookup (src : obj number) (msg : Message number) key :
  key <> "__proto__" ->
  obj_lookup (properties (copy_fields src msg)) key =
  match obj_lookup src key with
  | Some v => if accepted_key key then Some (Tree v) else obj_lookup (properties msg) key
  | None => obj_lookup (properties msg) key
  end.
Proof.
  intros Hk. unfold copy_fields. rewrite (fold_copy_lookup _ _ _ _ Hk), obj_lookup_existsb.
  unfold obj_get. destruct (obj_lookup src key); [|now rewrite andb_false_r].
  now rewrite andb_true_r.
Qed.

Lemma fold_copy_NoDup (get : string -> value number) (keys : list string)
    (msg : Message number) :
  NoDup (obj_keys (properties msg)) ->
  NoDup (obj_keys (properties
    (fold_left (fun msg k => if accepted_key k then assign k (Tree (get k)) msg else msg)
       keys msg))).
Proof.
  revert msg. induction keys as [|k keys IH]; intros msg Hnd; [exact Hnd|].
  simpl. apply IH. destruct (accepted_key k); [now apply assign_NoDup | exact Hnd].
Qed.

(** A source without a key [__proto__] leaves an untouched message
    untouched. *)
Lemma fold_copy_untouched (get : string -> value number) (keys : list string)
    (msg : Message number) :
  ~ In "__proto__" keys -> untouched msg ->
  untouched (fold_left (fun msg k => if accepted_key k then assign k (Tree (get k)) msg else msg)
               keys msg).
Proof.
  revert msg. induction keys as [|k keys IH]; intros msg Hn Hu; [exact Hu|].
  simpl. apply IH; [intros Hin; apply Hn; now right|].
  destruct (accepted_key k); [|exact Hu].
  apply assign_untouched; [|exact Hu]. intros ->. apply Hn. now left.
Qed.

Lemma copy_fields_untouched (src : obj number) (msg : Message number) :
  obj_lookup src "__proto__" = None -> untouched msg -> untouched (copy_fields src msg).
Proof.
  intros Hs. apply fold_copy_untouched. intros Hin.
  apply obj_In_lookup in Hin as [v Hv]. congruence.
Qed.

(** Keys other than [__proto__] in a list leave the [__proto__] of a message
    alone. *)
Lemma fold_copy_proto_field (get : string -> value number) (keys : list string)
    (msg : Message number) :
  ~ In "__proto__" keys ->
  obj_lookup
    (properties
       (fold_left (fun msg k => if accepted_key k then assign k (Tree (get k)) msg else msg)
          keys msg))
    "__proto__"
  = obj_lookup (properties msg) "__proto__".
Proof.
  revert msg. induction keys as [|k keys IH]; intros msg Hn; [reflexivity|].
  simpl. rewrite IH by (intros Hin; apply Hn; now right).
  destruct (accepted_key k); [|reflexivity].
  assert (Hk : k <> "__proto__") by (intros ->; apply Hn; now left).
  rewrite (assign_properties _ _ _ Hk). now apply obj_lookup_set_other.
Qed.

(** The loop over an object with a key [__proto__] gives the value to the
    prototype setter: an untouched message gets no field of that name. *)
Lemma fold_copy_no_proto_field (get : string -> value number) (keys : list string)
    (msg : Message number) :
  NoDup keys -> untouched msg ->
  obj_lookup
    (properties
       (fold_left (fun msg k => if accepted_key k then assign k (Tree (get k)) msg else msg)
          keys msg))
    "__proto__"
  = None.
Proof.
  revert msg. induction keys as [|k keys IH]; intros msg Hnd Hu; [apply Hu|].
  apply NoDup_cons in Hnd as [Hk Hnd]. simpl.
  destruct (String.eqb k "__proto__") eqn:E.
  - apply String.eqb_eq in E. subst k.
    rewrite fold_copy_proto_field by (intros Hin; apply Hk, list_elem_of_In, Hin).
    change (accepted_key "__proto__") with true. cbv iota.
    unfold assign. rewrite String.eqb_refl, (untouched_reaches _ Hu). cbn [andb].
    rewrite set_prototype_properties. apply Hu.
  - apply String.eqb_neq in E. apply IH; [exact Hnd|].
    destruct (accepted_key k); [now apply assign_untouched | exact Hu].
Qed.

Lemma empty_message_untouched : untouched (number := number) empty_message.
Proof. split; reflexivity. Qed.

(** Reading a concrete key through a chain of assignments. *)
Ltac lookup_set :=
  repeat first
    [ rewrite obj_lookup_set_same
    | rewrite obj_lookup_set_other by discriminate ].

(** ** The level table *)

Lemma levelMapping_lookup_other levels key :
  ~ In key (level_keys levels) -> obj_lookup (make_levelMapping levels) key = None.
Proof.
  unfold level_keys. intros Hn. simpl in Hn.
  unfold make_levelMapping. cbv zeta.
  rewrite !obj_lookup_set_other by (intros E; apply Hn; rewrite E; tauto).
  reflexivity.
Qed.

Lemma levelMapping_lookup levels :
  NoDup (level_keys levels) ->
  obj_lookup (make_levelMapping levels) (levelStr (ALL levels)) = Some (VNum (num_of_Z 7))
  /\ obj_lookup (make_levelMapping levels) (levelStr (TRACE levels)) = Some (VNum (num_of_Z 7))
  /\ obj_lookup (make_levelMapping levels) (levelStr (DEBUG levels)) = Some (VNum (num_of_Z 7))
  /\ obj_lookup (make_levelMapping levels) (levelStr (INFO levels)) = Some (VNum (num_of_Z 6))
  /\ obj_lookup (make_levelMapping levels) (levelStr (WARN levels)) = Some (VNum (num_of_Z 4))
  /\ obj_lookup (make_levelMapping levels) (levelStr (ERROR levels)) = Some (VNum (num_of_Z 3))
  /\ obj_lookup (make_levelMapping levels) (levelStr (FATAL levels)) = Some (VNum (num_of_Z 2)).
Proof.
  unfold level_keys. intros Hnd.
  rewrite !NoDup_cons, !not_elem_of_cons in Hnd.
  unfold make_levelMapping. cbv zeta.
  repeat split;
    repeat first
      [ apply obj_lookup_set_same
      | rewrite obj_lookup_set_other by (intros E; symmetry in E; revert E; tauto) ].
Qed.

(** ** addCustomFields and preparePacket in closed form *)

Lemma get_prop_truthy (v : value number) key :
  truthy v = true -> get_prop v key = Ok (obj_get (own_props v) key).
Proof. destruct v; simpl; intros; try discriminate; reflexivity. Qed.

Lemma addCustomFields_eq (a : Appender number) defaults ev msg :
  addCustomFields a defaults ev msg =
  Ok (let merged := append_category a ev (copy_fields defaults msg) in
      let firstData := index (data ev) 0 in
      if is_carrier firstData
      then (shift ev, copy_fields (own_props firstData) merged)
      else (ev, merged)).
Proof.
  unfold addCustomFields, is_carrier. cbv zeta.
  destruct (truthy (index (data ev) 0)) eqn:Ht; simpl; [|reflexivity].
  rewrite (get_prop_truthy _ _ Ht). simpl.
  destruct (truthy (obj_get (own_props (index (data ev) 0)) "GELF")); simpl; [|reflexivity].
  destruct (index (data ev) 0); simpl in *; try discriminate; reflexivity.
Qed.

Lemma preparePacket_eq (a : Appender number) defaults now ev :
  exists ev' msg,
    addCustomFields a defaults ev empty_message = Ok (ev', msg)
    /\ preparePacket a defaults now ev = Ok (ev', finish_packet a now ev' msg).
Proof.
  unfold preparePacket. rewrite addCustomFields_eq. cbv zeta.
  match goal with |- context [if ?c then ?x else ?y] => destruct (if c then x else y) as [ev' msg] end.
  exists ev', msg. split; [reflexivity|]. simpl.
  unfold finish_packet, full_message_of.
  destruct (truthy (index (data ev') 1)) eqn:Ht; simpl; [|reflexivity].
  rewrite (get_prop_truthy _ _ Ht). reflexivity.
Qed.

Lemma addCustomFields_level (a : Appender number) defaults ev msg ev' msg' :
  addCustomFields a defaults ev msg = Ok (ev', msg') ->
  level ev' = level ev /\ categoryName ev' = categoryName ev.
Proof.
  rewrite addCustomFields_eq. cbv zeta.
  destruct (is_carrier _); intros [= <- <-]; auto.
Qed.

(** The own properties [finish_packet] leaves: six fields written after
    those of the merged message. *)
Lemma finish_packet_properties (a : Appender number) now ev (msg : Message number) :
  properties (finish_packet a now ev msg)
  = obj_set "level" (table_get (levelMapping a) (levelStr (level ev)))
      (obj_set "host" (Tree (VStr (hostname a)))
         (obj_set "timestamp"
            (match obj_lookup (properties msg) "timestamp" with
             | Some x =>
                 if field_truthy x then x
                 else Tree (VNum (num_div (num_of_Z now) (num_of_Z 1000)))
             | None =>
                 if truthy (inherited_timestamp msg) then Tree (inherited_timestamp msg)
                 else Tree (VNum (num_div (num_of_Z now) (num_of_Z 1000)))
             end)
            (obj_set "version" (Tree (VStr "1.1"))
               (obj_set "full_message" (Tree (full_message_of (index (data ev) 1)))
                  (obj_set "short_message" (Tree (index (data ev) 0)) (properties msg)))))).
Proof.
  unfold finish_packet. cbv zeta.
  rewrite !assign_properties by discriminate.
  do 3 f_equal. unfold get_timestamp.
  rewrite !assign_properties, !assign_prototype by discriminate.
  rewrite !obj_lookup_set_other by discriminate.
  unfold inherited_timestamp.
  destruct (obj_lookup (properties msg) "timestamp") as [x|]; [reflexivity|].
  destruct (prototype_of msg) as [v|b]; reflexivity.
Qed.

Lemma finish_packet_prototype (a : Appender number) now ev (msg : Message number) :
  prototype_of (finish_packet a now ev msg) = prototype_of msg.
Proof.
  unfold finish_packet. cbv zeta. now rewrite !assign_prototype by discriminate.
Qed.

Lemma finish_packet_level (a : Appender number) now ev msg :
  obj_lookup (properties (finish_packet a now ev msg)) "level"
  = Some (table_get (levelMapping a) (levelStr (level ev))).
Proof. rewrite finish_packet_properties. apply obj_lookup_set_same. Qed.

Lemma finish_packet_messages (a : Appender number) now ev msg :
  obj_lookup (properties (finish_packet a now ev msg)) "short_message"
  = Some (Tree (index (data ev) 0))
  /\ obj_lookup (properties (finish_packet a now ev msg)) "full_message"
     = Some (Tree (full_message_of (index (data ev) 1))).
Proof.
  rewrite finish_packet_properties. split; lookup_set; reflexivity.
Qed.

(** Keys the packet builder never writes keep what the merger left. *)
Lemma finish_packet_custom (a : Appender number) now ev msg key :
  starts_with_underscore key = true ->
  obj_lookup (properties (finish_packet a now ev msg)) key = obj_lookup (properties msg) key.
Proof.
  intros Hk. rewrite finish_packet_properties.
  rewrite !obj_lookup_set_other; auto; intros <-; discriminate.
Qed.

Lemma gelfAppender_ok (config : Config number) levels (w : World number) :
  exists a w',
    gelfAppender config levels w = (Ok a, w')
    /\ levelMapping a = make_levelMapping levels
    /\ appendCategory a
       = (if str_truthy (config_appendCategory config)
          then config_appendCategory config else None)
    /\ host a = str_or (config_host config) "localhost"
    /\ hostname a = str_or (config_hostname config) (os_hostname w).
Proof.
  unfold gelfAppender. unfold bind, record, ret, set_heap, dgram_createSocket_udp4,
    process_on, set_socket_running, set_exit_listeners, bind, record. simpl.
  destruct (config_customFields config); simpl;
    destruct (str_truthy (config_facility config)); simpl; eauto 10.
Qed.

(** ** JSON round trip *)





































(** ** Level Mapper *)

Lemma Object_prototype_get_other name :
  inherited_name name = false -> Object_prototype_get (number := number) name = Tree VUndefined.
Proof.
  unfold inherited_name, Object_prototype_members, Object_prototype_get.
  cbn [existsb]. intros Hn. apply orb_false_iff in Hn as [-> ->]. reflexivity.
Qed.

(** C3: with the seven level names pairwise distinct, the packet's [level] is
    7 for ALL, TRACE and DEBUG, 6 for INFO, 4 for WARN, 3 for ERROR and 2 for
    FATAL. *)
Theorem C3_level_mapping (config : Config number) levels (w w' : World number)
    a defaults now ev :
  NoDup (level_keys levels) ->
  gelfAppender config levels w = (Ok a, w') ->
  exists ev' packet,
    preparePacket a defaults now ev = Ok (ev', packet)
    /\ (levelStr (level ev) = levelStr (ALL levels)
        \/ levelStr (level ev) = levelStr (TRACE levels)
        \/ levelStr (level ev) = levelStr (DEBUG levels) ->
        obj_lookup (properties packet) "level" = Some (Tree (VNum (num_of_Z 7))))
    /\ (levelStr (level ev) = levelStr (INFO levels) ->
        obj_lookup (properties packet) "level" = Some (Tree (VNum (num_of_Z 6))))
    /\ (levelStr (level ev) = levelStr (WARN levels) ->
        obj_lookup (properties packet) "level" = Some (Tree (VNum (num_of_Z 4))))
    /\ (levelStr (level ev) = levelStr (ERROR levels) ->
        obj_lookup (properties packet) "level" = Some (Tree (VNum (num_of_Z 3))))
    /\ (levelStr (level ev) = levelStr (FATAL levels) ->
        obj_lookup (properties packet) "level" = Some (Tree (VNum (num_of_Z 2)))).
Proof.
  intros Hnd Hctor.
  destruct (gelfAppender_ok config levels w) as (a0 & w0 & Heq & Hmap & _).
  rewrite Heq in Hctor. injection Hctor as -> ->.
  destruct (preparePacket_eq a defaults now ev) as (ev' & msg & Hadd & Hprep).
  destruct (addCustomFields_level _ _ _ _ _ _ Hadd) as [Hlevel _].
  exists ev', (finish_packet a now ev' msg). split; [exact Hprep|].
  rewrite finish_packet_level, Hmap, Hlevel. unfold table_get.
  destruct (levelMapping_lookup levels Hnd) as (H1 & H2 & H3 & H4 & H5 & H6 & H7).
  repeat split.
  - intros [-> | [-> | ->]]; [now rewrite H1 | now rewrite H2 | now rewrite H3].
  - intros ->. now rewrite H4.
  - intros ->. now rewrite H5.
  - intros ->. now rewrite H6.
  - intros ->. now rewrite H7.
Qed.


(** ** Field Merger *)

Lemma is_carrier_object (props : obj number) :
  is_carrier (VObj props) = truthy (obj_get props "GELF").
Proof. reflexivity. Qed.

(** C4 (as amended): a first data item that is an object with a truthy
    [GELF] has its accepted keys other than [__proto__] copied over what the
    defaults and the category left, and is shifted off the event's data; its
    [__proto__], assigned to a message that still has the prototype it was
    made with, makes no field; without such an item the message is what the
    defaults and the category made it and the event is untouched. *)
Theorem C4_per_event_fields (a : Appender number) defaults ev msg :
  let merged := append_category a ev (copy_fields defaults msg) in
  (forall props,
      data ev !! 0 = Some (VObj props) ->
      truthy (obj_get props "GELF") = true ->
      exists ev' msg',
        addCustomFields a defaults ev msg = Ok (ev', msg')
        /\ data ev' = tail (data ev)
        /\ (forall key v,
              obj_lookup props key = Some v -> accepted_key key = true ->
              key <> "__proto__" ->
              obj_lookup (properties msg') key = Some (Tree v))
        /\ (forall key,
              obj_lookup props key = None \/ accepted_key key = false ->
              key <> "__proto__" ->
              obj_lookup (properties msg') key = obj_lookup (properties merged) key)
        /\ (untouched merged -> NoDup (obj_keys props) ->
            obj_lookup (properties msg') "__proto__" = None))
  /\ (data ev !! 0 = None
      \/ (exists first,
             data ev !! 0 = Some first
             /\ forall g, get_prop first "GELF" = Ok g -> truthy g = false) ->
      addCustomFields a defaults ev msg = Ok (ev, merged)).
Proof.
  intros merged. split.
  - intros props Hfirst Hgelf.
    exists (shift ev), (copy_fields props merged).
    rewrite addCustomFields_eq. cbv zeta. unfold index. rewrite Hfirst.
    rewrite is_carrier_object, Hgelf. simpl.
    split; [reflexivity|]. split; [reflexivity|]. split; [|split].
    + intros key v Hv Ha Hk. now rewrite (copy_fields_lookup _ _ _ Hk), Hv, Ha.
    + intros key [Hnone | Ha] Hk; rewrite (copy_fields_lookup _ _ _ Hk).
      * now rewrite Hnone.
      * rewrite Ha. now destruct (obj_lookup props key).
    + intros Hu Hnd. now apply fold_copy_no_proto_field.
  - intros Hno. rewrite addCustomFields_eq. cbv zeta. unfold index.
    destruct Hno as [-> | (first & -> & Hg)]; [reflexivity|].
    unfold is_carrier. destruct (truthy first) eqn:Ht; [|reflexivity].
    rewrite (get_prop_truthy _ _ Ht) in *. now rewrite (Hg _ eq_refl).
Qed.

Lemma append_category_lookup_other (a : Appender number) ev (msg : Message number) key :
  key <> "__proto__" ->
  (forall name, appendCategory a = Some name -> key <> "_" +:+ name) ->
  obj_lookup (properties (append_category a ev msg)) key = obj_lookup (properties msg) key.
Proof.
  intros Hk Hne. unfold append_category.
  destruct (appendCategory a) as [name|]; [|reflexivity].
  destruct (String.eqb name ""); [reflexivity|].
  rewrite (assign_lookup _ _ _ _ Hk).
  destruct (String.eqb ("_" +:+ name) key) eqn:E; [|reflexivity].
  apply String.eqb_eq in E. now destruct (Hne name eq_refl).
Qed.

(** C5 (as amended): the loop over the defaults copies a key other than
    [__proto__] exactly when it starts with an underscore and is not [_id],
    and makes no field of [__proto__]; with defaults [{_a: 1, _id: 99}], no
    carrier in the event and a category-append option that names neither [a]
    nor [id], the packet has [_a = 1] and no [_id]. *)
Theorem C5_default_fields :
  (forall (defaults : obj number) key,
      key <> "__proto__" ->
      obj_lookup (properties (copy_fields defaults empty_message)) key
      = match obj_lookup defaults key with
        | Some v => if starts_with_underscore key && negb (String.eqb key "_id")
                    then Some (Tree v) else None
        | None => None
        end)
  /\ (forall (defaults : obj number),
        NoDup (obj_keys defaults) ->
        obj_lookup (properties (copy_fields defaults empty_message)) "__proto__" = None)
  /\ (forall (a : Appender number) now ev,
        appendCategory a <> Some "a" ->
        appendCategory a <> Some "id" ->
        is_carrier (index (data ev) 0) = false ->
        exists ev' packet,
          preparePacket a [("_a", VNum (num_of_Z 1)); ("_id", VNum (num_of_Z 99))] now ev
          = Ok (ev', packet)
          /\ obj_lookup (properties packet) "_a" = Some (Tree (VNum (num_of_Z 1)))
          /\ obj_lookup (properties packet) "_id" = None).
Proof.
  split; [|split].
  - intros defaults key Hk. rewrite (copy_fields_lookup _ _ _ Hk). reflexivity.
  - intros defaults Hnd. apply fold_copy_no_proto_field; [exact Hnd|].
    apply empty_message_untouched.
  - intros a now ev Ha Hid Hcar.
    destruct (preparePacket_eq a [("_a", VNum (num_of_Z 1)); ("_id", VNum (num_of_Z 99))]
                now ev) as (ev' & msg & Hadd & Hprep).
    exists ev', (finish_packet a now ev' msg). split; [exact Hprep|].
    rewrite addCustomFields_eq in Hadd. cbv zeta in Hadd. rewrite Hcar in Hadd.
    injection Hadd as <- <-.
    rewrite !finish_packet_custom by reflexivity.
    rewrite !append_category_lookup_other.
    + rewrite !copy_fields_lookup by discriminate. split; reflexivity.
    + discriminate.
    + intros name Hn E. change ("_" +:+ name) with (String "_" name) in E.
      injection E as <-. contradiction.
    + discriminate.
    + intros name Hn E. change ("_" +:+ name) with (String "_" name) in E.
      injection E as <-. contradiction.
Qed.

(** C10: configured with [appendCategory: "id"], every packet carries the
    event's category name under [_id], the key the field filter rejects. *)
Theorem C10_append_category_id (config : Config number) levels (w w' : World number)
    a defaults now ev :
  config_appendCategory config = Some "id" ->
  gelfAppender config levels w = (Ok a, w') ->
  accepted_key "_id" = false
  /\ exists ev' packet,
       preparePacket a defaults now ev = Ok (ev', packet)
       /\ obj_lookup (properties packet) "_id" = Some (Tree (VStr (categoryName ev))).
Proof.
  intros Hcfg Hctor. split; [reflexivity|].
  destruct (gelfAppender_ok config levels w) as (a0 & w0 & Heq & _ & Hcat & _).
  rewrite Heq in Hctor. injection Hctor as -> ->.
  rewrite Hcfg in Hcat. simpl in Hcat.
  destruct (preparePacket_eq a defaults now ev) as (ev' & msg & Hadd & Hprep).
  exists ev', (finish_packet a now ev' msg). split; [exact Hprep|].
  rewrite finish_packet_custom by reflexivity.
  rewrite addCustomFields_eq in Hadd. cbv zeta in Hadd.
  assert (Hm : obj_lookup (properties (append_category a ev (copy_fields defaults empty_message)))
                 "_id"
               = Some (Tree (VStr (categoryName ev)))).
  { unfold append_category. rewrite Hcat.
    change (String.eqb "id" "") with false. cbv iota.
    rewrite assign_lookup by discriminate. reflexivity. }
  destruct (is_carrier (index (data ev) 0)); injection Hadd as <- <-; [|exact Hm].
  rewrite copy_fields_lookup by discriminate.
  destruct (obj_lookup (own_props (index (data ev) 0)) "_id"); exact Hm.
Qed.

(** ** Packet Builder *)

(** C6 (as amended): [short_message] is the first data item left by the
    merger; [full_message] is the [stack] property of the second one when
    that item is truthy and the empty string otherwise; for data [["hello"]]
    they are ["hello"] and the empty string. *)
Theorem C6_messages (a : Appender number) defaults now ev :
  exists ev' msg packet full_message,
    addCustomFields a defaults ev empty_message = Ok (ev', msg)
    /\ preparePacket a defaults now ev = Ok (ev', packet)
    /\ obj_lookup (properties packet) "short_message" = Some (Tree (index (data ev') 0))
    /\ obj_lookup (properties packet) "full_message" = Some (Tree full_message)
    /\ (if truthy (index (data ev') 1)
        then get_prop (index (data ev') 1) "stack"
        else Ok (VStr "")) = Ok full_message
    /\ (data ev = [VStr "hello"] ->
        index (data ev') 0 = VStr "hello" /\ full_message = VStr "").
Proof.
  destruct (preparePacket_eq a defaults now ev) as (ev' & msg & Hadd & Hprep).
  exists ev', msg, (finish_packet a now ev' msg), (full_message_of (index (data ev') 1)).
  destruct (finish_packet_messages a now ev' msg) as [Hs Hf].
  split; [exact Hadd|]. split; [exact Hprep|]. split; [exact Hs|]. split; [exact Hf|].
  split.
  - unfold full_message_of. destruct (truthy (index (data ev') 1)) eqn:Ht; [|reflexivity].
    apply (get_prop_truthy _ _ Ht).
  - intros Hdata.
    rewrite addCustomFields_eq in Hadd. cbv zeta in Hadd. rewrite Hdata in Hadd.
    assert (Hc : is_carrier (index [VStr "hello"] 0) = false) by (vm_compute; reflexivity).
    rewrite Hc in Hadd. injection Hadd as <- <-. rewrite Hdata. split; reflexivity.
Qed.

(** ** Transport *)

(** The calls of the gzip callback on a packet of at most 8192 bytes: the
    two debug lines and the send; when the socket runs and the network
    reports an error for this send, the [console.error] of the send's
    callback. *)
Lemma gzip_callback_trace (a : Appender number) (packet : list Byte.byte) (w : World number) :
  (Z.of_nat (length packet) <= 8192)%Z ->
  trace (snd (gzip_callback a (gzip_packet packet) w))
  = trace w ++ [debug (DebugLength (length packet)); debug DebugSending;
                client_send_call packet 0 (length packet) (port a) (host a)]
    ++ (if socket_running w
        then match send_results w with
             | Some err :: _ => [console_error err]
             | _ => []
             end
        else []).
Proof.
  intros Hlen. apply Z.ltb_ge in Hlen.
  unfold gzip_callback, sendPacket, client_send, bind, record, set_send_results, ret.
  rewrite Hlen. simpl.
  destruct (socket_running w); simpl; [|now rewrite <- !app_assoc].
  destruct (send_results w) as [|[err|] rest]; simpl; rewrite <- ?app_assoc; reflexivity.
Qed.

Lemma gzip_callback_returns (a : Appender number) (packet : list Byte.byte) (w : World number) :
  (Z.of_nat (length packet) <= 8192)%Z ->
  fst (gzip_callback a (gzip_packet packet) w)
  = if socket_running w then Ok tt else Throw ERR_SOCKET_DGRAM_NOT_RUNNING.
Proof.
  intros Hlen. apply Z.ltb_ge in Hlen.
  unfold gzip_callback, sendPacket, client_send, bind, record, set_send_results, ret.
  rewrite Hlen. simpl.
  destruct (socket_running w); simpl; [|reflexivity].
  destruct (send_results w) as [|[err|] rest]; reflexivity.
Qed.

(** C1: the gzip callback hands the packet to [client.send] exactly when it
    has at most 8192 bytes, and a running socket takes it; a longer packet
    leaves one debug line, reaches neither the socket nor [console.error],
    and the callback returns. *)
Theorem C1_size_limit (a : Appender number) (packet : list Byte.byte) (w : World number) :
  exists calls,
    trace (snd (gzip_callback a (gzip_packet packet) w)) = trace w ++ calls
    /\ ((Z.of_nat (length packet) <= 8192)%Z
        <-> In (client_send_call packet 0 (length packet) (port a) (host a)) calls)
    /\ ((Z.of_nat (length packet) <= 8192)%Z -> socket_running w = true ->
        fst (gzip_callback a (gzip_packet packet) w) = Ok tt)
    /\ ((8192 < Z.of_nat (length packet))%Z ->
        fst (gzip_callback a (gzip_packet packet) w) = Ok tt
        /\ calls = [debug (DebugTooLarge (length packet))]
        /\ socket_running (snd (gzip_callback a (gzip_packet packet) w)) = socket_running w).
Proof.
  destruct (8192 <? Z.of_nat (length packet))%Z eqn:E.
  - apply Z.ltb_lt in E. unfold gzip_callback. rewrite (proj2 (Z.ltb_lt _ _) E).
    exists [debug (DebugTooLarge (length packet))]. simpl.
    split; [reflexivity|]. split; [|split].
    + split; [lia | intros [Hin | []]; discriminate].
    + lia.
    + intros _. repeat split.
  - apply Z.ltb_ge in E.
    eexists. split; [apply (gzip_callback_trace _ _ _ E)|]. split; [|split].
    + split; [intros _; simpl; tauto | intros _; exact E].
    + intros _ Hrun. now rewrite (gzip_callback_returns _ _ _ E), Hrun.
    + lia.
Qed.

(** What [app] does with an event whose message compresses to [packet]: it
    runs the callback on that packet and returns the event as the merger left
    it. *)
Lemma app_runs_callback (a : Appender number) now ev ev' message packet (w : World number) :
  preparePacket a (default ([] : obj number) (heap w !! defaultCustomFields a)) now ev
  = Ok (ev', message) ->
  encode message = Some packet ->
  app a now ev w
  = (match fst (gzip_callback a (gzip_packet packet) w) with
     | Ok _ => Ok ev'
     | Throw e => Throw e
     end,
     snd (gzip_callback a (gzip_packet packet) w)).
Proof.
  intros Hprep Henc. unfold app, encode, bind, lift, ret in *. rewrite Hprep.
  destruct (gzip (Buffer_from (stringify_message message))) as [stack|p]; [discriminate|].
  injection Henc as ->.
  destruct (gzip_callback a (gzip_packet packet) w) as [[[]|e] w']; reflexivity.
Qed.

(** C2 (as amended): [shutdown] has no guard.  On a running socket the first
    call closes it, removes the exit listener and returns; a second call
    asks the socket to close again, and the closed socket throws. *)
Theorem C2_shutdown_twice (cb1 cb2 : option nat) (w : World number) :
  socket_running w = true ->
  exists w1 w2,
    shutdown cb1 w = (Ok tt, w1)
    /\ shutdown cb2 w1 = (Throw ERR_SOCKET_DGRAM_NOT_RUNNING, w2)
    /\ trace w1
       = trace w ++ [debug DebugShutdown; client_close_call cb1; process_removeListener_exit]
    /\ trace w2 = trace w1 ++ [debug DebugShutdown; client_close_call cb2]
    /\ socket_running w1 = false
    /\ exit_listeners w1 = pred (exit_listeners w).
Proof.
  intros Hrun.
  unfold shutdown, client_close, process_removeListener, bind, record,
    set_socket_running, set_exit_listeners. simpl. rewrite Hrun. simpl.
  eexists _, _. repeat split; rewrite <- ?app_assoc; reflexivity.
Qed.

(** ** Construction *)

(** C9: with a facility and a [customFields] object in the configuration,
    [defaultCustomFields] is that very object and [_facility] is written into
    it: the caller's object is changed, no other object is. *)
Theorem C9_facility_aliases_customFields (config : Config number) levels
    (w : World number) l (o : obj number) f :
  config_customFields config = Some l ->
  heap w !! l = Some o ->
  config_facility config = Some f ->
  f <> "" ->
  exists a w',
    gelfAppender config levels w = (Ok a, w')
    /\ defaultCustomFields a = l
    /\ heap w' !! l = Some (obj_set "_facility" (VStr f) o)
    /\ forall l', l' <> l -> heap w' !! l' = heap w !! l'.
Proof.
  intros Hcf Ho Hf Hne.
  unfold gelfAppender, bind, record, ret, set_heap, dgram_createSocket_udp4,
    process_on, set_socket_running, set_exit_listeners, bind, record. simpl.
  rewrite Hcf, Hf. simpl.
  apply String.eqb_neq in Hne. rewrite Hne. simpl.
  eexists _, _. split; [reflexivity|]. simpl. rewrite Ho. simpl.
  split; [reflexivity|]. split.
  - apply lookup_insert_eq.
  - intros l' Hl'. now apply lookup_insert_ne.
Qed.

(** ** Compressor and wire format *)


(** The keys of a packet are pairwise distinct: every field is written by
    an assignment, starting from the empty object. *)
Lemma copy_fields_NoDup (src : obj number) (msg : Message number) :
  NoDup (obj_keys (properties msg)) -> NoDup (obj_keys (properties (copy_fields src msg))).
Proof. apply fold_copy_NoDup. Qed.

Lemma preparePacket_NoDup (a : Appender number) defaults now ev ev' message :
  preparePacket a defaults now ev = Ok (ev', message) ->
  NoDup (obj_keys (properties message)).
Proof.
  destruct (preparePacket_eq a defaults now ev) as (ev0 & msg & Hadd & Hprep).
  rewrite Hprep. intros [= <- <-].
  assert (Hmsg : NoDup (obj_keys (properties msg))).
  { rewrite addCustomFields_eq in Hadd. cbv zeta in Hadd.
    assert (Hmerged : NoDup (obj_keys (properties
                         (append_category a ev (copy_fields defaults empty_message))))).
    { unfold append_category.
      pose proof (copy_fields_NoDup defaults empty_message (NoDup_nil_2 (A := string))) as Hc.
      destruct (appendCategory a) as [name|]; [|exact Hc].
      destruct (String.eqb name ""); [exact Hc | now apply assign_NoDup]. }
    destruct (is_carrier (index (data ev) 0)); injection Hadd as <- <-;
      [now apply copy_fields_NoDup | exact Hmerged]. }
  rewrite finish_packet_properties. now repeat apply obj_set_NoDup.
Qed.





(** * Further properties *)

(** ** Keys of arrays and strings *)

Lemma pretty_N_char_digit x : is_digit (pretty_N_char x) = true.
Proof. unfold pretty_N_char. repeat case_match; reflexivity. Qed.

Lemma pretty_N_go_digit x s :
  starts_with_digit s = true -> starts_with_digit (pretty_N_go x s) = true.
Proof.
  revert s. induction (N.lt_wf_0 x) as [x _ IH]; intros s Hs.
  assert (x = 0 \/ 0 < x)%N as [->|Hx] by lia.
  - now rewrite pretty_N_go_0.
  - rewrite pretty_N_go_step by exact Hx. apply IH.
    + now apply N.div_lt.
    + apply pretty_N_char_digit.
Qed.

(** The decimal index of an element starts with a digit. *)
Lemma pretty_nat_digit (i : nat) : starts_with_digit (pretty i) = true.
Proof.
  unfold pretty, pretty_nat, pretty, pretty_N.
  destruct (decide (N.of_nat i = 0%N)) as [_|Hne]; [reflexivity|].
  rewrite pretty_N_go_step by lia. apply pretty_N_go_digit, pretty_N_char_digit.
Qed.

Lemma index_keys_lookup (l : list (value number)) key :
  starts_with_digit key = false ->
  obj_lookup (imap (fun i x => (pretty i, x)) l) key = None.
Proof.
  intros Hk.
  enough (Hgen : forall (g : nat -> nat),
             obj_lookup (imap (fun i x => (pretty (g i), x)) l) key = None)
    by apply (Hgen (fun i => i)).
  induction l as [|x l IH]; intros g; [reflexivity|].
  cbn [imap obj_lookup].
  destruct (String.eqb (pretty (g 0)) key) eqn:E.
  - apply String.eqb_eq in E. rewrite <- E, pretty_nat_digit in Hk. discriminate.
  - apply (IH (fun i => g (S i))).
Qed.

(** Only an object has own properties under a key that does not start with
    a digit. *)
Lemma own_props_lookup_non_object (v : value number) key :
  starts_with_digit key = false ->
  (forall props, v <> VObj props) ->
  obj_lookup (own_props v) key = None.
Proof.
  intros Hk Hv. destruct v as [| |b|n|s|items|props]; try reflexivity.
  - now apply index_keys_lookup.
  - now apply index_keys_lookup.
  - now destruct (Hv props).
Qed.

Lemma is_carrier_non_object (v : value number) :
  (forall props, v <> VObj props) -> is_carrier v = false.
Proof.
  intros Hv. unfold is_carrier. destruct (truthy v) eqn:Ht; [|reflexivity].
  rewrite (get_prop_truthy _ _ Ht). unfold obj_get.
  now rewrite own_props_lookup_non_object.
Qed.

(** ** The merged message, key by key *)

Lemma append_category_lookup (a : Appender number) ev (msg : Message number) key :
  key <> "__proto__" ->
  obj_lookup (properties (append_category a ev msg)) key
  = match category_field a ev key with
    | Some v => Some (Tree v)
    | None => obj_lookup (properties msg) key
    end.
Proof.
  intros Hk. unfold append_category, category_field.
  destruct (appendCategory a) as [name|]; [|reflexivity].
  destruct (String.eqb name ""); [reflexivity|]. cbn [negb andb].
  rewrite (assign_lookup _ _ _ _ Hk), (String.eqb_sym key).
  now destruct (String.eqb ("_" +:+ name) key).
Qed.

Lemma category_field_underscore (a : Appender number) ev key v :
  category_field a ev key = Some v -> starts_with_underscore key = true.
Proof.
  unfold category_field. destruct (appendCategory a) as [name|]; [|discriminate].
  destruct (negb (String.eqb name "") && String.eqb key ("_" +:+ name)) eqn:E; [|discriminate].
  apply andb_true_iff in E as [_ E]. apply String.eqb_eq in E. now subst key.
Qed.

(** Precedence in the merged message, under a key other than [__proto__]: a
    field of the carrier, else the category field, else a default field. *)
Lemma merged_lookup (a : Appender number) defaults ev ev' msg key :
  key <> "__proto__" ->
  addCustomFields a defaults ev empty_message = Ok (ev', msg) ->
  obj_lookup (properties msg) key
  = option_map Tree
      (match (if is_carrier (index (data ev) 0)
              then accepted_field (own_props (index (data ev) 0)) key else None) with
       | Some v => Some v
       | None =>
           match category_field a ev key with
           | Some c => Some c
           | None => accepted_field defaults key
           end
       end).
Proof.
  intros Hk. rewrite addCustomFields_eq. cbv zeta. unfold accepted_field.
  destruct (is_carrier (index (data ev) 0)); intros [= <- <-];
    rewrite ?(copy_fields_lookup _ _ _ Hk), (append_category_lookup _ _ _ _ Hk),
      (copy_fields_lookup _ _ _ Hk); cbn [obj_lookup properties empty_message].
  - destruct (obj_lookup (own_props (index (data ev) 0)) key) as [v|].
    + destruct (accepted_key key); [reflexivity|].
      destruct (category_field a ev key); [reflexivity|].
      destruct (obj_lookup defaults key); [|reflexivity].
      now destruct (accepted_key key).
    + destruct (category_field a ev key); [reflexivity|].
      destruct (obj_lookup defaults key); [|reflexivity].
      now destruct (accepted_key key).
  - destruct (category_field a ev key); [reflexivity|].
    destruct (obj_lookup defaults key); [|reflexivity].
    now destruct (accepted_key key).
Qed.

Lemma merged_lookup_plain (a : Appender number) defaults ev ev' msg key :
  addCustomFields a defaults ev empty_message = Ok (ev', msg) ->
  starts_with_underscore key = false ->
  obj_lookup (properties msg) key = None.
Proof.
  intros Hadd Hk.
  assert (Hne : key <> "__proto__") by (intros ->; discriminate).
  rewrite (merged_lookup _ _ _ _ _ key Hne Hadd).
  assert (Hacc : forall src : obj number, accepted_field src key = None).
  { intros src. unfold accepted_field, accepted_key. rewrite Hk.
    now destruct (obj_lookup src key). }
  rewrite !Hacc.
  destruct (category_field a ev key) as [c|] eqn:Ec.
  - apply category_field_underscore in Ec. congruence.
  - now destruct (is_carrier _).
Qed.

(** Without a key [__proto__] in the defaults and in the carrier, the merged
    message still has the prototype it was made with. *)
Lemma merged_untouched (a : Appender number) defaults ev ev' msg :
  obj_lookup defaults "__proto__" = None ->
  (is_carrier (index (data ev) 0) = true ->
   obj_lookup (own_props (index (data ev) 0)) "__proto__" = None) ->
  addCustomFields a defaults ev empty_message = Ok (ev', msg) ->
  untouched msg.
Proof.
  intros Hd Hc. rewrite addCustomFields_eq. cbv zeta.
  assert (Hm : untouched (append_category a ev (copy_fields defaults empty_message))).
  { pose proof (copy_fields_untouched defaults _ Hd empty_message_untouched) as Hu.
    unfold append_category. destruct (appendCategory a) as [name|]; [|exact Hu].
    destruct (String.eqb name ""); [exact Hu|].
    destruct (String.eqb ("_" +:+ name) "__proto__") eqn:E.
    - apply String.eqb_eq in E. rewrite E. now rewrite assign_proto_string.
    - apply String.eqb_neq in E. now apply assign_untouched. }
  destruct (is_carrier (index (data ev) 0)); intros [= <- <-]; [|exact Hm].
  apply copy_fields_untouched; [now apply Hc | exact Hm].
Qed.

(** ** Packet Builder: what every packet has *)

(** X1: [preparePacket] returns for every event, whatever its data items
    are (none, [null], [undefined], primitives): every property read is
    behind a truthiness test.  The event keeps its category and level, and
    its data lose the first item exactly when that item is a carrier. *)
Theorem X1_preparePacket_returns (a : Appender number) defaults now ev :
  exists ev' packet,
    preparePacket a defaults now ev = Ok (ev', packet)
    /\ categoryName ev' = categoryName ev
    /\ level ev' = level ev
    /\ data ev' = (if is_carrier (index (data ev) 0) then tail (data ev) else data ev).
Proof.
  destruct (preparePacket_eq a defaults now ev) as (ev' & msg & Hadd & Hprep).
  exists ev', (finish_packet a now ev' msg). split; [exact Hprep|].
  destruct (addCustomFields_level _ _ _ _ _ _ Hadd) as [Hl Hc].
  split; [exact Hc|]. split; [exact Hl|].
  rewrite addCustomFields_eq in Hadd. cbv zeta in Hadd.
  destruct (is_carrier (index (data ev) 0)); injection Hadd as <- _; reflexivity.
Qed.

(** X2: precedence of the custom fields.  Under a key that starts with an
    underscore and is not [__proto__] the packet holds the carrier's value
    when the first data item is a carrier with that key and the key is not
    [_id]; else the category name when the key is the category field; else
    the default's value when that key is not [_id]; else nothing. *)
Theorem X2_field_precedence (a : Appender number) defaults now ev key :
  starts_with_underscore key = true ->
  key <> "__proto__" ->
  exists ev' packet,
    preparePacket a defaults now ev = Ok (ev', packet)
    /\ obj_lookup (properties packet) key
       = option_map Tree
           (match (if is_carrier (index (data ev) 0)
                   then accepted_field (own_props (index (data ev) 0)) key else None) with
            | Some v => Some v
            | None =>
                match category_field a ev key with
                | Some c => Some c
                | None => accepted_field defaults key
                end
            end).
Proof.
  intros Hk Hne.
  destruct (preparePacket_eq a defaults now ev) as (ev' & msg & Hadd & Hprep).
  exists ev', (finish_packet a now ev' msg). split; [exact Hprep|].
  rewrite (finish_packet_custom _ _ _ _ _ Hk). exact (merged_lookup _ _ _ _ _ key Hne Hadd).
Qed.

(** X3: [_id] reaches a packet through the category-append option alone.
    Whatever the defaults and the carrier hold under [_id], the packet has
    [_id] exactly when [appendCategory] is ["id"], and then it is the
    category name. *)
Theorem X3_id_only_from_category (a : Appender number) defaults now ev :
  exists ev' packet,
    preparePacket a defaults now ev = Ok (ev', packet)
    /\ obj_lookup (properties packet) "_id"
       = match appendCategory a with
         | Some name =>
             if String.eqb name "id" then Some (Tree (VStr (categoryName ev))) else None
         | None => None
         end.
Proof.
  destruct (preparePacket_eq a defaults now ev) as (ev' & msg & Hadd & Hprep).
  exists ev', (finish_packet a now ev' msg). split; [exact Hprep|].
  rewrite finish_packet_custom by reflexivity.
  rewrite (merged_lookup _ _ _ _ _ "_id" ltac:(discriminate) Hadd).
  assert (Hacc : forall src : obj number, accepted_field src "_id" = None).
  { intros src. unfold accepted_field. now destruct (obj_lookup src "_id"). }
  rewrite !Hacc. unfold category_field.
  replace (if is_carrier (index (data ev) 0) then None else None)
    with (@None (value number)) by now destruct (is_carrier _).
  destruct (appendCategory a) as [name|]; [|reflexivity].
  change (String.eqb "_id" ("_" +:+ name)) with (String.eqb "id" name).
  rewrite (String.eqb_sym "id" name).
  destruct (String.eqb name "id") eqn:E.
  - apply String.eqb_eq in E. subst name. reflexivity.
  - now rewrite andb_false_r.
Qed.

(** X4: no custom field reaches the keys [version] and [host]: they are
    ["1.1"] and the appender's hostname.  [timestamp] is the clock reading
    divided by 1000, unless a [__proto__] field of the defaults or of the
    carrier made an object with a truthy [timestamp] the prototype of the
    message: line 106 then finds that value and keeps it.  Without a key
    [__proto__] in the defaults and in the carrier the message keeps the
    prototype it was made with and the clock is used. *)
Theorem X4_builder_fields (a : Appender number) defaults now ev :
  exists ev' packet,
    preparePacket a defaults now ev = Ok (ev', packet)
    /\ obj_lookup (properties packet) "version" = Some (Tree (VStr "1.1"))
    /\ obj_lookup (properties packet) "host" = Some (Tree (VStr (hostname a)))
    /\ obj_lookup (properties packet) "timestamp"
       = Some (Tree (if truthy (inherited_timestamp packet) then inherited_timestamp packet
                     else VNum (num_div (num_of_Z now) (num_of_Z 1000))))
    /\ (obj_lookup defaults "__proto__" = None ->
        (is_carrier (index (data ev) 0) = true ->
         obj_lookup (own_props (index (data ev) 0)) "__proto__" = None) ->
        prototype_of packet = Builtin Object_prototype
        /\ obj_lookup (properties packet) "timestamp"
           = Some (Tree (VNum (num_div (num_of_Z now) (num_of_Z 1000))))).
Proof.
  destruct (preparePacket_eq a defaults now ev) as (ev' & msg & Hadd & Hprep).
  exists ev', (finish_packet a now ev' msg). split; [exact Hprep|].
  pose proof (merged_lookup_plain _ _ _ _ _ "timestamp" Hadd eq_refl) as Hts.
  assert (Htime : obj_lookup (properties (finish_packet a now ev' msg)) "timestamp"
                  = Some (Tree (if truthy (inherited_timestamp msg) then inherited_timestamp msg
                                else VNum (num_div (num_of_Z now) (num_of_Z 1000))))).
  { rewrite finish_packet_properties. lookup_set. rewrite Hts.
    now destruct (truthy (inherited_timestamp msg)). }
  assert (Hinh : inherited_timestamp (finish_packet a now ev' msg) = inherited_timestamp msg).
  { unfold inherited_timestamp. now rewrite finish_packet_prototype. }
  split; [rewrite finish_packet_properties; lookup_set; reflexivity|].
  split; [rewrite finish_packet_properties; lookup_set; reflexivity|].
  split; [now rewrite Hinh|].
  intros Hd Hc. destruct (merged_untouched _ _ _ _ _ Hd Hc Hadd) as [Hp _].
  rewrite finish_packet_prototype. split; [exact Hp|].
  rewrite Htime. unfold inherited_timestamp. now rewrite Hp.
Qed.

(** X5: the keys of a packet, in the order [JSON.stringify] writes them, are
    the custom fields the merger left, each starting with an underscore,
    followed by [short_message], [full_message], [version], [timestamp],
    [host], [level]; no key occurs twice. *)
Theorem X5_packet_keys (a : Appender number) defaults now ev :
  exists ev' msg packet,
    addCustomFields a defaults ev empty_message = Ok (ev', msg)
    /\ preparePacket a defaults now ev = Ok (ev', packet)
    /\ obj_keys (properties packet) = obj_keys (properties msg) ++ packet_keys
    /\ Forall (fun key => starts_with_underscore key = true) (obj_keys (properties msg))
    /\ NoDup (obj_keys (properties packet)).
Proof.
  destruct (preparePacket_eq a defaults now ev) as (ev' & msg & Hadd & Hprep).
  exists ev', msg, (finish_packet a now ev' msg).
  split; [exact Hadd|]. split; [exact Hprep|].
  pose proof (fun key => merged_lookup_plain _ _ _ _ _ key Hadd) as Hnone.
  split; [|split].
  - rewrite finish_packet_properties. unfold packet_keys.
    rewrite (Hnone "timestamp" eq_refl).
    repeat (rewrite obj_keys_set; lookup_set; rewrite Hnone by reflexivity).
    rewrite <- !app_assoc. reflexivity.
  - apply Forall_forall. intros key Hin.
    apply list_elem_of_In, obj_In_lookup in Hin. destruct Hin as [v Hv].
    destruct (starts_with_underscore key) eqn:Hk; [reflexivity|].
    rewrite (Hnone key Hk) in Hv. discriminate.
  - exact (preparePacket_NoDup _ _ _ _ _ _ Hprep).
Qed.

Lemma obj_lookup_set_cases {V} (o : list (string * V)) k v key x :
  obj_lookup (obj_set k v o) key = Some x -> x = v \/ obj_lookup o key = Some x.
Proof.
  destruct (String.eqb k key) eqn:E.
  - apply String.eqb_eq in E. subst k. rewrite obj_lookup_set_same. intros [= ->]. now left.
  - apply String.eqb_neq in E. rewrite obj_lookup_set_other by exact E. now right.
Qed.

(** X6: for a level whose name names no member of [Object.prototype], the
    level of a packet is [undefined] or one of 7, 6, 4, 3, 2, whatever the
    names in the table are (distinct or not): the severities 0, 1 and 5 of
    lines 10-15 are never assigned. *)
Theorem X6_level_values (config : Config number) levels (w w' : World number)
    a defaults now ev :
  gelfAppender config levels w = (Ok a, w') ->
  inherited_name (levelStr (level ev)) = false ->
  exists ev' packet v,
    preparePacket a defaults now ev = Ok (ev', packet)
    /\ obj_lookup (properties packet) "level" = Some (Tree v)
    /\ In v [VUndefined; VNum (num_of_Z 7); VNum (num_of_Z 6); VNum (num_of_Z 4);
             VNum (num_of_Z 3); VNum (num_of_Z 2)].
Proof.
  intros Hctor Hname.
  destruct (gelfAppender_ok config levels w) as (a0 & w0 & Heq & Hmap & _).
  rewrite Heq in Hctor. injection Hctor as -> ->.
  destruct (preparePacket_eq a defaults now ev) as (ev' & msg & Hadd & Hprep).
  destruct (addCustomFields_level _ _ _ _ _ _ Hadd) as [Hlevel _].
  exists ev', (finish_packet a now ev' msg), (obj_get (levelMapping a) (levelStr (level ev))).
  split; [exact Hprep|]. split.
  - rewrite finish_packet_level, Hlevel. unfold table_get, obj_get.
    destruct (obj_lookup (levelMapping a) (levelStr (level ev))); [reflexivity|].
    now rewrite (Object_prototype_get_other _ Hname).
  - rewrite Hmap. unfold obj_get.
    destruct (obj_lookup (make_levelMapping levels) (levelStr (level ev))) as [v|] eqn:E;
      [|now left].
    unfold make_levelMapping in E. cbv zeta in E.
    repeat (apply obj_lookup_set_cases in E as [-> | E]; [simpl; tauto|]).
    discriminate.
Qed.

(** X17: a level that is not in the table and is named like a member of
    [Object.prototype] gets that member as the packet's [level]:
    [Object.prototype] itself under the name [__proto__], a function under
    any other.  The JSON text has an empty object for the first and no
    [level] field for a function. *)
Theorem X17_inherited_level (config : Config number) levels (w w' : World number)
    a defaults now ev :
  gelfAppender config levels w = (Ok a, w') ->
  ~ In (levelStr (level ev)) (level_keys levels) ->
  inherited_name (levelStr (level ev)) = true ->
  exists ev' packet b,
    preparePacket a defaults now ev = Ok (ev', packet)
    /\ obj_lookup (properties packet) "level" = Some (Builtin b)
    /\ b = (if String.eqb (levelStr (level ev)) "__proto__" then Object_prototype
            else Object_function (levelStr (level ev)))
    /\ field_text (number := number) (Builtin b)
       = (if String.eqb (levelStr (level ev)) "__proto__"
          then Some ["{"%char; "}"%char] else None).
Proof.
  intros Hctor Hnot Hname.
  destruct (gelfAppender_ok config levels w) as (a0 & w0 & Heq & Hmap & _).
  rewrite Heq in Hctor. injection Hctor as -> ->.
  destruct (preparePacket_eq a defaults now ev) as (ev' & msg & Hadd & Hprep).
  destruct (addCustomFields_level _ _ _ _ _ _ Hadd) as [Hlevel _].
  exists ev', (finish_packet a now ev' msg),
    (if String.eqb (levelStr (level ev)) "__proto__" then Object_prototype
     else Object_function (levelStr (level ev))).
  split; [exact Hprep|].
  rewrite finish_packet_level, Hmap, Hlevel. unfold table_get.
  rewrite (levelMapping_lookup_other levels _ Hnot).
  unfold inherited_name, Object_prototype_members in Hname. cbn [existsb] in Hname.
  unfold Object_prototype_get.
  destruct (String.eqb (levelStr (level ev)) "__proto__").
  - split; [reflexivity|]. split; reflexivity.
  - cbn [orb] in Hname. rewrite Hname. split; [reflexivity|]. split; reflexivity.
Qed.

(** X7: a first data item that is neither an object nor an array (a string,
    a number, a boolean, [null], [undefined], or none) is never consumed: the
    event is returned as it came and the item is the [short_message]. *)
Theorem X7_plain_message_kept (a : Appender number) defaults now ev :
  (forall props, index (data ev) 0 <> VObj props) ->
  (forall items, index (data ev) 0 <> VArr items) ->
  exists packet,
    preparePacket a defaults now ev = Ok (ev, packet)
    /\ obj_lookup (properties packet) "short_message" = Some (Tree (index (data ev) 0)).
Proof.
  intros Hfirst _.
  destruct (preparePacket_eq a defaults now ev) as (ev' & msg & Hadd & Hprep).
  rewrite addCustomFields_eq in Hadd. cbv zeta in Hadd.
  rewrite (is_carrier_non_object _ Hfirst) in Hadd. injection Hadd as <- <-.
  eexists. split; [exact Hprep|]. apply finish_packet_messages.
Qed.

(** X8: a truthy second data item without a [stack] property (a string, a
    number, [true], an array, an object that has none) makes [full_message]
    [undefined], neither the item nor the empty string. *)
Theorem X8_full_message_without_stack (a : Appender number) defaults now ev :
  let second := index (if is_carrier (index (data ev) 0) then tail (data ev) else data ev) 1 in
  truthy second = true ->
  (forall props, second = VObj props -> obj_lookup props "stack" = None) ->
  exists ev' packet,
    preparePacket a defaults now ev = Ok (ev', packet)
    /\ obj_lookup (properties packet) "full_message" = Some (Tree VUndefined).
Proof.
  intros second Ht Hstack.
  destruct (preparePacket_eq a defaults now ev) as (ev' & msg & Hadd & Hprep).
  exists ev', (finish_packet a now ev' msg). split; [exact Hprep|].
  assert (Hdata : data ev' = if is_carrier (index (data ev) 0) then tail (data ev) else data ev).
  { rewrite addCustomFields_eq in Hadd. cbv zeta in Hadd.
    destruct (is_carrier (index (data ev) 0)); injection Hadd as <- _; reflexivity. }
  destruct (finish_packet_messages a now ev' msg) as [_ Hf]. rewrite Hf, Hdata.
  fold second. unfold full_message_of. rewrite Ht. unfold obj_get.
  destruct second as [| |b|n|s|items|props] eqn:E; try discriminate;
    try (rewrite own_props_lookup_non_object; [reflexivity | reflexivity | discriminate]).
  cbn [own_props]. now rewrite (Hstack props eq_refl).
Qed.

(** ** Transport: what [app] does with an event *)

(** X9: when [zlib.gzip] reports an error for the packet's JSON text, [app]
    writes the error's stack to [console.error], calls nothing on the
    socket, and returns. *)
Theorem X9_app_gzip_error (a : Appender number) now ev (w : World number) ev' message stack :
  preparePacket a (default ([] : obj number) (heap w !! defaultCustomFields a)) now ev
  = Ok (ev', message) ->
  gzip (Buffer_from (stringify_message message)) = inl stack ->
  exists w',
    app a now ev w = (Ok ev', w')
    /\ trace w' = trace w ++ [console_error stack]
    /\ heap w' = heap w
    /\ socket_running w' = socket_running w
    /\ exit_listeners w' = exit_listeners w.
Proof.
  intros Hprep Hz. unfold app, bind, lift, ret. rewrite Hprep, Hz.
  eexists. split; [reflexivity|]. repeat split.
Qed.

(** X10: for an event whose packet compresses to at most 8192 bytes, [app]
    on a running socket makes one [client.send] call: the gzip of the
    packet's JSON text, from offset 0 over its whole length, to the
    appender's port and host.  When the network reports an error for that
    send, the callback of the send writes it to [console.error]; otherwise
    nothing follows the send.  The store is not touched. *)
Theorem X10_app_sends_packet (a : Appender number) now ev (w : World number)
    ev' message packet :
  preparePacket a (default ([] : obj number) (heap w !! defaultCustomFields a)) now ev
  = Ok (ev', message) ->
  gzip (Buffer_from (stringify_message message)) = inr packet ->
  (Z.of_nat (length packet) <= 8192)%Z ->
  socket_running w = true ->
  exists w',
    app a now ev w = (Ok ev', w')
    /\ trace w'
       = trace w ++ [debug (DebugLength (length packet)); debug DebugSending;
                     client_send_call packet 0 (length packet) (port a) (host a)]
         ++ match send_results w with
            | Some err :: _ => [console_error err]
            | _ => []
            end
    /\ send_results w' = tail (send_results w)
    /\ heap w' = heap w
    /\ socket_running w' = true.
Proof.
  intros Hprep Hz Hlen Hrun.
  assert (Henc : encode message = Some packet) by (unfold encode; now rewrite Hz).
  rewrite (app_runs_callback _ _ _ _ _ _ _ Hprep Henc).
  rewrite (gzip_callback_returns _ _ _ Hlen), Hrun.
  eexists. split; [reflexivity|].
  split; [now rewrite (gzip_callback_trace _ _ _ Hlen), Hrun|].
  apply Z.ltb_ge in Hlen.
  unfold gzip_callback, sendPacket, client_send, bind, record, set_send_results, ret.
  rewrite Hlen. simpl. rewrite Hrun. simpl.
  destruct (send_results w) as [|[err|] rest]; simpl; repeat split; exact Hrun.
Qed.

(** X11: after [shutdown] the callback of a packet of at most 8192 bytes
    still calls [client.send]; the closed socket throws and nothing in the
    callback catches it. *)
Theorem X11_send_after_shutdown (a : Appender number) cb (packet : list Byte.byte)
    (w : World number) :
  socket_running w = true ->
  (Z.of_nat (length packet) <= 8192)%Z ->
  exists w1 w2,
    shutdown cb w = (Ok tt, w1)
    /\ gzip_callback a (gzip_packet packet) w1 = (Throw ERR_SOCKET_DGRAM_NOT_RUNNING, w2)
    /\ trace w2
       = trace w1 ++ [debug (DebugLength (length packet)); debug DebugSending;
                      client_send_call packet 0 (length packet) (port a) (host a)].
Proof.
  intros Hrun Hlen. apply Z.ltb_ge in Hlen.
  unfold shutdown, client_close, process_removeListener, gzip_callback, sendPacket,
    client_send, bind, record, set_socket_running, set_exit_listeners.
  simpl. rewrite Hrun, Hlen. simpl.
  eexists _, _. split; [reflexivity|]. split; [reflexivity|].
  simpl. now rewrite <- !app_assoc.
Qed.

(** ** Construction and lifecycle *)

(** X12: without a [customFields] object in the configuration the default
    fields live in a new object: no object the store held before is changed,
    and the new one holds [_facility] when a facility is configured and
    nothing otherwise. *)
Theorem X12_fresh_default_fields (config : Config number) levels (w : World number) :
  config_customFields config = None ->
  exists a w',
    gelfAppender config levels w = (Ok a, w')
    /\ heap w !! defaultCustomFields a = None
    /\ (forall l, l <> defaultCustomFields a -> heap w' !! l = heap w !! l)
    /\ heap w' !! defaultCustomFields a
       = Some (match config_facility config with
               | Some f => if String.eqb f "" then [] else [("_facility", VStr f)]
               | None => []
               end).
Proof.
  intros Hcf.
  unfold gelfAppender, bind, record, ret, set_heap, dgram_createSocket_udp4,
    process_on, set_socket_running, set_exit_listeners, bind, record. simpl.
  rewrite Hcf. simpl.
  assert (Hfresh : heap w !! fresh (dom (heap w)) = None).
  { apply not_elem_of_dom, is_fresh. }
  destruct (config_facility config) as [f|]; simpl;
    [destruct (String.eqb f "") eqn:E; simpl|];
    eexists _, _; (split; [reflexivity|]); simpl;
    (split; [exact Hfresh|]); split.
  - intros l Hl. now rewrite lookup_insert_ne.
  - apply lookup_insert_eq.
  - intros l Hl. now rewrite !lookup_insert_ne.
  - rewrite lookup_insert_eq. now rewrite lookup_insert_eq.
  - intros l Hl. now rewrite lookup_insert_ne.
  - apply lookup_insert_eq.
Qed.

(** X13: construction followed by [shutdown] leaves as many exit listeners
    as there were and a closed socket; in between there is one listener more
    and the socket runs.  The calls are, in order: the socket's creation,
    [process.on], [client.close] with the callback, [process.removeListener]. *)
Theorem X13_construct_then_shutdown (config : Config number) levels cb (w : World number) :
  exists a w1 w2,
    gelfAppender config levels w = (Ok a, w1)
    /\ shutdown cb w1 = (Ok tt, w2)
    /\ socket_running w1 = true
    /\ exit_listeners w1 = S (exit_listeners w)
    /\ socket_running w2 = false
    /\ exit_listeners w2 = exit_listeners w
    /\ heap w2 = heap w1
    /\ trace w2
       = trace w ++ [debug DebugCreate; dgram_createSocket; process_on_exit;
                     debug DebugShutdown; client_close_call cb; process_removeListener_exit].
Proof.
  unfold gelfAppender, shutdown, client_close, process_removeListener, bind, record, ret,
    set_heap, dgram_createSocket_udp4, process_on, set_socket_running, set_exit_listeners,
    bind, record. simpl.
  destruct (config_customFields config); simpl;
    destruct (str_truthy (config_facility config)); simpl;
    eexists _, _, _; (split; [reflexivity|]); simpl; (split; [reflexivity|]); simpl;
    rewrite <- !app_assoc; repeat split.
Qed.

(** X14: a configured facility reaches the packets.  After construction the
    default fields hold [_facility]; every event whose carrier (if any) has
    no [_facility] of its own gets it in its packet, unless the category is
    appended under [facility]. *)
Theorem X14_facility_in_packets (config : Config number) levels (w : World number) f :
  config_facility config = Some f ->
  f <> "" ->
  (forall l, config_customFields config = Some l -> is_Some (heap w !! l)) ->
  exists a w' defaults,
    gelfAppender config levels w = (Ok a, w')
    /\ heap w' !! defaultCustomFields a = Some defaults
    /\ obj_lookup defaults "_facility" = Some (VStr f)
    /\ forall now ev,
         category_field a ev "_facility" = None ->
         (if is_carrier (index (data ev) 0)
          then obj_lookup (own_props (index (data ev) 0)) "_facility" else None) = None ->
         exists ev' packet,
           preparePacket a defaults now ev = Ok (ev', packet)
           /\ obj_lookup (properties packet) "_facility" = Some (Tree (VStr f)).
Proof.
  intros Hf Hne Hheap.
  assert (Hpackets : forall (a : Appender number) (defaults : obj number),
             obj_lookup defaults "_facility" = Some (VStr f) ->
             forall now ev,
               category_field a ev "_facility" = None ->
               (if is_carrier (index (data ev) 0)
                then obj_lookup (own_props (index (data ev) 0)) "_facility" else None) = None ->
               exists ev' packet,
                 preparePacket a defaults now ev = Ok (ev', packet)
                 /\ obj_lookup (properties packet) "_facility" = Some (Tree (VStr f))).
  { intros a defaults Hd now ev Hcat Hcar.
    destruct (preparePacket_eq a defaults now ev) as (ev' & msg & Hadd & Hprep).
    exists ev', (finish_packet a now ev' msg). split; [exact Hprep|].
    rewrite finish_packet_custom by reflexivity.
    rewrite (merged_lookup _ _ _ _ _ "_facility" ltac:(discriminate) Hadd), Hcat.
    unfold accepted_field at 1.
    destruct (is_carrier (index (data ev) 0)); [rewrite Hcar|];
      unfold accepted_field; now rewrite Hd. }
  apply String.eqb_neq in Hne.
  unfold gelfAppender, bind, record, ret, set_heap, dgram_createSocket_udp4,
    process_on, set_socket_running, set_exit_listeners, bind, record. simpl.
  rewrite Hf. simpl. rewrite Hne. simpl.
  destruct (config_customFields config) as [l|] eqn:Hcf; simpl.
  - destruct (Hheap l eq_refl) as [o Ho].
    eexists _, _, _. split; [reflexivity|]. simpl. rewrite Ho. simpl.
    split; [apply lookup_insert_eq|]. split; [apply obj_lookup_set_same|].
    apply Hpackets, obj_lookup_set_same.
  - eexists _, _, _. split; [reflexivity|]. simpl.
    split; [apply lookup_insert_eq|]. rewrite lookup_insert_eq. simpl.
    split; [reflexivity|]. now apply Hpackets.
Qed.

Lemma gzip_callback_send_calls (a : Appender number) (packet : list Byte.byte) (w : World number) :
  (Z.of_nat (length packet) <= 8192)%Z ->
  send_calls (trace (snd (gzip_callback a (gzip_packet packet) w)))
  = send_calls (trace w) ++ [packet].
Proof.
  intros Hlen. rewrite (gzip_callback_trace _ _ _ Hlen).
  unfold send_calls. rewrite !flat_map_app. cbn [flat_map app].
  destruct (socket_running w); [|now rewrite app_nil_r].
  destruct (send_results w) as [|[err|] rest]; cbn [flat_map app]; now rewrite ?app_nil_r.
Qed.

(** X15: where the datagrams go.  The appender built from a configuration
    sends every packet of at most 8192 bytes to the configured host and port;
    a missing or empty host is [localhost], a missing or zero port is 12201. *)
Theorem X15_destination (config : Config number) levels (w : World number) :
  exists a w',
    gelfAppender config levels w = (Ok a, w')
    /\ host a = match config_host config with
                | Some h => if String.eqb h "" then "localhost" else h
                | None => "localhost"
                end
    /\ port a = match config_port config with
                | Some p => if num_truthy p then p else num_of_Z 12201
                | None => num_of_Z 12201
                end
    /\ forall (packet : list Byte.byte) (w2 : World number),
         (Z.of_nat (length packet) <= 8192)%Z ->
         send_calls (trace (snd (gzip_callback a (gzip_packet packet) w2)))
         = send_calls (trace w2) ++ [packet]
         /\ In (client_send_call packet 0 (length packet) (port a) (host a))
               (trace (snd (gzip_callback a (gzip_packet packet) w2))).
Proof.
  assert (Hsend : forall (a : Appender number) (packet : list Byte.byte) (w2 : World number),
             (Z.of_nat (length packet) <= 8192)%Z ->
             send_calls (trace (snd (gzip_callback a (gzip_packet packet) w2)))
             = send_calls (trace w2) ++ [packet]
             /\ In (client_send_call packet 0 (length packet) (port a) (host a))
                   (trace (snd (gzip_callback a (gzip_packet packet) w2)))).
  { intros a packet w2 Hlen. split; [now apply gzip_callback_send_calls|].
    rewrite (gzip_callback_trace _ _ _ Hlen).
    apply in_or_app. right. right. right. now left. }
  unfold gelfAppender, bind, record, ret, set_heap, dgram_createSocket_udp4,
    process_on, set_socket_running, set_exit_listeners, bind, record. simpl.
  destruct (config_customFields config); simpl;
    destruct (str_truthy (config_facility config)); simpl;
    eexists _, _; (split; [reflexivity|]); simpl;
    (split; [reflexivity|]); (split; [reflexivity|]); apply Hsend.
Qed.

(** X16: the default fields are read from the store when the event is
    logged, not when the appender is built.  A field the object holds then
    under a key other than [__proto__] (set by the constructor or by the
    caller since) is in the packet unless the category field or a carrier
    overrides it, and the datagram [app] sends is the encoding of that
    packet. *)
Theorem X16_default_fields_live (a : Appender number) now ev (w : World number)
    defaults key v :
  heap w !! defaultCustomFields a = Some defaults ->
  accepted_field defaults key = Some v ->
  key <> "__proto__" ->
  category_field a ev key = None ->
  (if is_carrier (index (data ev) 0)
   then accepted_field (own_props (index (data ev) 0)) key else None) = None ->
  exists ev' message,
    preparePacket a defaults now ev = Ok (ev', message)
    /\ obj_lookup (properties message) key = Some (Tree v)
    /\ forall packet,
         encode message = Some packet ->
         (Z.of_nat (length packet) <= 8192)%Z ->
         send_calls (trace (snd (app a now ev w))) = send_calls (trace w) ++ [packet].
Proof.
  intros Hheap Hacc Hne Hcat Hcar.
  assert (Hk : starts_with_underscore key = true).
  { unfold accepted_field in Hacc. destruct (obj_lookup defaults key); [|discriminate].
    destruct (accepted_key key) eqn:E; [|discriminate].
    now apply accepted_key_iff in E. }
  destruct (preparePacket_eq a defaults now ev) as (ev' & msg & Hadd & Hprep).
  exists ev', (finish_packet a now ev' msg). split; [exact Hprep|]. split.
  - rewrite (finish_packet_custom _ _ _ _ _ Hk), (merged_lookup _ _ _ _ _ key Hne Hadd).
    now rewrite Hcar, Hcat, Hacc.
  - intros packet Henc Hlen.
    assert (Hprep' : preparePacket a (default ([] : obj number) (heap w !! defaultCustomFields a))
                       now ev
                     = Ok (ev', finish_packet a now ev' msg)) by now rewrite Hheap.
    rewrite (app_runs_callback _ _ _ _ _ _ _ Hprep' Henc). cbn [snd].
    now apply gzip_callback_send_calls.
Qed.


End Properties.

(** * The properties on concrete events *)

Lemma log4js_levels_distinct : NoDup (level_keys log4js_levels).
Proof. apply (bool_decide_unpack _). vm_compute. exact I. Qed.

Lemma bare_appender_constructed :
  gelfAppender bare_config log4js_levels start_world = (Ok bare_appender, bare_world).
Proof. vm_compute. reflexivity. Qed.

Lemma C1_size_limit_witness :
  (exists calls,
      trace (snd (gzip_callback bare_appender (gzip_packet packet_8192) bare_world))
      = trace bare_world ++ calls
      /\ In (client_send_call packet_8192 0 (length packet_8192) 12201%Z "localhost") calls)
  /\ (exists calls,
        trace (snd (gzip_callback bare_appender (gzip_packet packet_8193) bare_world))
        = trace bare_world ++ calls
        /\ fst (gzip_callback bare_appender (gzip_packet packet_8193) bare_world) = Ok tt
        /\ calls = [debug (DebugTooLarge (length packet_8193))]).
Proof.
  split.
  - destruct (C1_size_limit bare_appender packet_8192 bare_world) as (calls & Ht & Hiff & _ & _).
    exists calls. split; [exact Ht|]. apply Hiff.
    unfold packet_8192. rewrite repeat_length. lia.
  - destruct (C1_size_limit bare_appender packet_8193 bare_world) as (calls & Ht & _ & _ & Hbig).
    exists calls. split; [exact Ht|].
    destruct Hbig as (Hr & Hc & _); [|now split].
    unfold packet_8193. rewrite repeat_length. lia.
Defined.

Lemma C2_shutdown_twice_witness :
  exists w1 w2,
    shutdown None bare_world = (Ok tt, w1)
    /\ shutdown None w1 = (Throw ERR_SOCKET_DGRAM_NOT_RUNNING, w2)
    /\ trace w1
       = trace bare_world
         ++ [debug DebugShutdown; client_close_call None; process_removeListener_exit]
    /\ trace w2 = trace w1 ++ [debug DebugShutdown; client_close_call None]
    /\ socket_running w1 = false
    /\ exit_listeners w1 = pred (exit_listeners bare_world).
Proof. exact (C2_shutdown_twice None None bare_world eq_refl). Defined.

(** The claim as worded fails: the second [shutdown] of a freshly built
    appender reaches [client.close] again, and throws. *)
Lemma C2_shutdown_twice_counterexample :
  exists w1 w2,
    gelfAppender bare_config log4js_levels start_world = (Ok bare_appender, bare_world)
    /\ shutdown None bare_world = (Ok tt, w1)
    /\ shutdown None w1 = (Throw ERR_SOCKET_DGRAM_NOT_RUNNING, w2)
    /\ close_calls (trace w1) = [None]
    /\ close_calls (trace w2) = [None; None].
Proof. vm_compute. eexists _, _. repeat split. Qed.

Lemma C3_level_mapping_witness :
  exists ev' packet,
    preparePacket bare_appender [] 1700000000000%Z gelf_event = Ok (ev', packet)
    /\ obj_lookup (properties packet) "level" = Some (Tree (VNum 4%Z)).
Proof.
  destruct (C3_level_mapping bare_config log4js_levels start_world bare_world
              bare_appender [] 1700000000000%Z gelf_event
              log4js_levels_distinct bare_appender_constructed)
    as (ev' & packet & Hp & _ & _ & Hwarn & _).
  exists ev', packet. split; [exact Hp | apply Hwarn; reflexivity].
Defined.



Lemma C4_per_event_fields_witness :
  (exists ev' msg',
      addCustomFields bare_appender [] gelf_event empty_message = Ok (ev', msg')
      /\ data ev' = [VStr "msg"]
      /\ obj_lookup (properties msg') "_x" = Some (Tree (VNum 5%Z))
      /\ obj_lookup (properties msg') "GELF" = None)
  /\ addCustomFields bare_appender [] hello_event empty_message = Ok (hello_event, empty_message).
Proof.
  split.
  - destruct (proj1 (C4_per_event_fields bare_appender [] gelf_event empty_message)
                [("GELF", VBool true); ("_x", VNum 5%Z)] eq_refl eq_refl)
      as (ev' & msg' & Hadd & Hdata & Hcopy & Hframe & _).
    exists ev', msg'. split; [exact Hadd|]. split; [exact Hdata|]. split.
    + apply (Hcopy "_x" (VNum 5%Z)); [reflexivity | reflexivity | discriminate].
    + rewrite (Hframe "GELF"); [reflexivity | right; reflexivity | discriminate].
  - apply (proj2 (C4_per_event_fields bare_appender [] hello_event empty_message)).
    right. exists (VStr "hello"). split; [reflexivity|].
    intros g Hg. vm_compute in Hg. injection Hg as <-. reflexivity.
Defined.

(** The claim as worded fails: the first data item of [proto_event] is an
    object with a truthy [GELF] and an own key [__proto__], which starts with
    an underscore and is not [_id]; the output has no field of that name.
    The value went to the prototype setter, and the packet's [timestamp] is
    the 5 it inherits from there. *)
Lemma C4_per_event_fields_counterexample :
  exists ev' msg' packet,
    data proto_event !! 0
    = Some (VObj [("GELF", VBool true); ("__proto__", VObj [("timestamp", VNum 5%Z)])])
    /\ accepted_key "__proto__" = true
    /\ addCustomFields bare_appender [] proto_event empty_message = Ok (ev', msg')
    /\ obj_lookup (properties msg') "__proto__" = None
    /\ prototype_of msg' = Tree (VObj [("timestamp", VNum 5%Z)])
    /\ preparePacket bare_appender [] 1700000000000%Z proto_event = Ok (ev', packet)
    /\ obj_lookup (properties packet) "__proto__" = None
    /\ obj_lookup (properties packet) "timestamp" = Some (Tree (VNum 5%Z)).
Proof.
  eexists _, _, _.
  split; [reflexivity|]. split; [reflexivity|].
  split; [vm_compute; reflexivity|].
  split; [reflexivity|]. split; [reflexivity|].
  split; [vm_compute; reflexivity|].
  split; reflexivity.
Qed.

Lemma C5_default_fields_witness :
  exists ev' packet,
    preparePacket bare_appender [("_a", VNum 1%Z); ("_id", VNum 99%Z)] 1700000000000%Z hello_event
    = Ok (ev', packet)
    /\ obj_lookup (properties packet) "_a" = Some (Tree (VNum 1%Z))
    /\ obj_lookup (properties packet) "_id" = None.
Proof.
  pose proof (proj2 (proj2 C5_default_fields) bare_appender 1700000000000%Z hello_event) as Hw.
  change (num_of_Z 1%Z) with 1%Z in Hw. change (num_of_Z 99%Z) with 99%Z in Hw.
  apply Hw.
  - discriminate.
  - discriminate.
  - vm_compute. reflexivity.
Defined.

(** The claim as worded fails twice.  Built with [appendCategory: "id"]
    over the defaults [{_a: 1, _id: 99}], the appender puts [_id] into the
    packet of an event that carries no field of its own.  And a default
    under the own key [__proto__], which starts with an underscore and is not
    [_id], is not copied: the message has no field of that name. *)
Lemma C5_default_fields_counterexample :
  exists a w ev' packet,
    gelfAppender
      {| config_host := None; config_port := None; config_hostname := None;
         config_facility := None; config_customFields := Some 1;
         config_appendCategory := Some "id" |}
      log4js_levels caller_world = (Ok a, w)
    /\ heap w !! defaultCustomFields a = Some [("_a", VNum 1%Z); ("_id", VNum 99%Z)]
    /\ is_carrier (index (data hello_event) 0) = false
    /\ preparePacket a [("_a", VNum 1%Z); ("_id", VNum 99%Z)] 1700000000000%Z hello_event
       = Ok (ev', packet)
    /\ obj_lookup (properties packet) "_id" = Some (Tree (VStr "app"))
    /\ accepted_key "__proto__" = true
    /\ obj_lookup
         (properties (copy_fields [("__proto__", VObj [("_a", VNum 1%Z)])]
                        (empty_message (number := Z))))
         "__proto__"
       = None.
Proof. vm_compute. eexists _, _, _, _. repeat split. Qed.

Lemma C6_messages_witness :
  exists ev' packet,
    preparePacket bare_appender [] 1700000000000%Z hello_event = Ok (ev', packet)
    /\ obj_lookup (properties packet) "short_message" = Some (Tree (VStr "hello"))
    /\ obj_lookup (properties packet) "full_message" = Some (Tree (VStr "")).
Proof.
  destruct (C6_messages bare_appender [] 1700000000000%Z hello_event)
    as (ev' & msg & packet & full & _ & Hprep & Hs & Hf & _ & Hhello).
  destruct (Hhello eq_refl) as [H0 H1].
  exists ev', packet. split; [exact Hprep|].
  rewrite Hs, Hf, H0, H1. split; reflexivity.
Defined.

(** The claim as worded fails: the second data item of
    [logger.info("hello", 0)] is present and its [stack] is [undefined], but
    [full_message] is the empty string. *)
Lemma C6_messages_counterexample :
  exists ev' packet second,
    gelfAppender bare_config log4js_levels start_world = (Ok bare_appender, bare_world)
    /\ preparePacket bare_appender [] 1700000000000%Z count_event = Ok (ev', packet)
    /\ data ev' !! 1 = Some second
    /\ get_prop second "stack" = Ok VUndefined
    /\ obj_lookup (properties packet) "full_message" = Some (Tree (VStr ""))
    /\ VStr "" <> (VUndefined : value Z).
Proof. vm_compute. eexists _, _, _. repeat split. discriminate. Qed.

Lemma C9_facility_aliases_customFields_witness :
  exists a w',
    gelfAppender id_config log4js_levels caller_world = (Ok a, w')
    /\ defaultCustomFields a = 1
    /\ heap w' !! 1
       = Some [("_a", VNum 1%Z); ("_id", VNum 99%Z); ("_facility", VStr "nodejs-server")]
    /\ forall l', l' <> 1 -> heap w' !! l' = heap caller_world !! l'.
Proof.
  apply (C9_facility_aliases_customFields id_config log4js_levels caller_world 1
           [("_a", VNum 1%Z); ("_id", VNum 99%Z)] "nodejs-server").
  - reflexivity.
  - vm_compute. reflexivity.
  - reflexivity.
  - discriminate.
Defined.

Lemma C10_append_category_id_witness :
  exists a w,
    gelfAppender id_config log4js_levels caller_world = (Ok a, w)
    /\ accepted_key "_id" = false
    /\ exists ev' packet,
         preparePacket a [("_a", VNum 1%Z); ("_id", VNum 99%Z)] 1700000000000%Z gelf_event
         = Ok (ev', packet)
         /\ obj_lookup (properties packet) "_id" = Some (Tree (VStr "app")).
Proof.
  destruct (gelfAppender id_config log4js_levels caller_world) as [[a|e] w] eqn:E;
    [|vm_compute in E; discriminate].
  exists a, w. split; [reflexivity|].
  exact (C10_append_category_id id_config log4js_levels caller_world w a
           [("_a", VNum 1%Z); ("_id", VNum 99%Z)] 1700000000000%Z gelf_event eq_refl E).
Defined.






(** ** Further properties on concrete events *)

Lemma X2_field_precedence_witness :
  exists ev' packet,
    preparePacket bare_appender [("_x", VNum 1%Z)] 1700000000000%Z gelf_event = Ok (ev', packet)
    /\ obj_lookup (properties packet) "_x" = Some (Tree (VNum 5%Z)).
Proof.
  destruct (X2_field_precedence bare_appender [("_x", VNum 1%Z)] 1700000000000%Z gelf_event
              "_x" eq_refl ltac:(discriminate)) as (ev' & packet & Hp & Hl).
  exists ev', packet. split; [exact Hp|]. rewrite Hl. reflexivity.
Defined.

Lemma X6_level_values_witness :
  exists ev' packet v,
    preparePacket bare_appender [] 1700000000000%Z hello_event = Ok (ev', packet)
    /\ obj_lookup (properties packet) "level" = Some (Tree v)
    /\ In v [VUndefined; VNum 7%Z; VNum 6%Z; VNum 4%Z; VNum 3%Z; VNum 2%Z].
Proof.
  exact (X6_level_values bare_config log4js_levels start_world bare_world bare_appender []
           1700000000000%Z hello_event bare_appender_constructed eq_refl).
Defined.

Lemma X7_plain_message_kept_witness :
  exists packet,
    preparePacket bare_appender [] 1700000000000%Z hello_event = Ok (hello_event, packet)
    /\ obj_lookup (properties packet) "short_message" = Some (Tree (VStr "hello")).
Proof.
  apply (X7_plain_message_kept bare_appender [] 1700000000000%Z hello_event).
  - intros props. simpl. discriminate.
  - intros items. simpl. discriminate.
Defined.

Lemma X8_full_message_without_stack_witness :
  exists ev' packet,
    preparePacket bare_appender [] 1700000000000%Z detail_event = Ok (ev', packet)
    /\ obj_lookup (properties packet) "full_message" = Some (Tree VUndefined).
Proof.
  apply (X8_full_message_without_stack bare_appender [] 1700000000000%Z detail_event).
  - reflexivity.
  - intros props Hp. vm_compute in Hp. discriminate Hp.
Defined.

Lemma hello_packet_built :
  preparePacket bare_appender
    (default ([] : obj Z) (heap bare_world !! defaultCustomFields bare_appender))
    1700000000000%Z hello_event
  = Ok (hello_event, hello_packet).
Proof. vm_compute. reflexivity. Qed.

Lemma hello_packet_built_failing :
  preparePacket bare_appender
    (default ([] : obj Z) (heap failing_world !! defaultCustomFields bare_appender))
    1700000000000%Z hello_event
  = Ok (hello_event, hello_packet).
Proof. vm_compute. reflexivity. Qed.

Lemma X9_app_gzip_error_witness :
  exists w',
    @app Z JsZ zlib_failing bare_appender 1700000000000%Z hello_event bare_world
    = (Ok hello_event, w')
    /\ trace w' = trace bare_world ++ [console_error "Error: zlib"]
    /\ heap w' = heap bare_world
    /\ socket_running w' = socket_running bare_world
    /\ exit_listeners w' = exit_listeners bare_world.
Proof.
  exact (@X9_app_gzip_error Z JsZ zlib_failing bare_appender 1700000000000%Z hello_event
           bare_world hello_event hello_packet "Error: zlib"
           hello_packet_built eq_refl).
Defined.

Lemma X10_app_sends_packet_witness :
  exists w',
    app bare_appender 1700000000000%Z hello_event failing_world = (Ok hello_event, w')
    /\ trace w'
       = trace failing_world
         ++ [debug (DebugLength (length (Buffer_from hello_text))); debug DebugSending;
             client_send_call (Buffer_from hello_text) 0 (length (Buffer_from hello_text))
               12201%Z "localhost"]
         ++ [console_error "Error: getaddrinfo ENOTFOUND"]
    /\ send_results w' = []
    /\ heap w' = heap failing_world
    /\ socket_running w' = true.
Proof.
  apply (@X10_app_sends_packet Z JsZ zlib_stored bare_appender 1700000000000%Z hello_event
           failing_world hello_event hello_packet (Buffer_from hello_text)
           hello_packet_built_failing eq_refl).
  - vm_compute. discriminate.
  - reflexivity.
Defined.

Lemma X11_send_after_shutdown_witness :
  exists w1 w2,
    shutdown None bare_world = (Ok tt, w1)
    /\ gzip_callback bare_appender (gzip_packet packet_8192) w1
       = (Throw ERR_SOCKET_DGRAM_NOT_RUNNING, w2)
    /\ trace w2
       = trace w1 ++ [debug (DebugLength (length packet_8192)); debug DebugSending;
                      client_send_call packet_8192 0 (length packet_8192) 12201%Z "localhost"].
Proof.
  apply (X11_send_after_shutdown bare_appender None packet_8192 bare_world eq_refl).
  unfold packet_8192. rewrite repeat_length. lia.
Defined.

Lemma X12_fresh_default_fields_witness :
  exists a w',
    gelfAppender bare_config log4js_levels start_world = (Ok a, w')
    /\ heap start_world !! defaultCustomFields a = None
    /\ (forall l, l <> defaultCustomFields a -> heap w' !! l = heap start_world !! l)
    /\ heap w' !! defaultCustomFields a = Some [].
Proof. exact (X12_fresh_default_fields bare_config log4js_levels start_world eq_refl). Defined.

Lemma X14_facility_in_packets_witness :
  exists a w' defaults,
    gelfAppender id_config log4js_levels caller_world = (Ok a, w')
    /\ heap w' !! defaultCustomFields a = Some defaults
    /\ exists ev' packet,
         preparePacket a defaults 1700000000000%Z gelf_event = Ok (ev', packet)
         /\ obj_lookup (properties packet) "_facility" = Some (Tree (VStr "nodejs-server")).
Proof.
  destruct (X14_facility_in_packets id_config log4js_levels caller_world "nodejs-server"
              eq_refl)
    as (a & w' & defaults & Hctor & Hheap & _ & Hpackets).
  - discriminate.
  - intros l [= <-]. eexists. vm_compute. reflexivity.
  - exists a, w', defaults. split; [exact Hctor|]. split; [exact Hheap|].
    apply Hpackets.
    + vm_compute in Hctor. injection Hctor as <- _. reflexivity.
    + reflexivity.
Defined.

Lemma X16_default_fields_live_witness :
  exists ev' message,
    preparePacket bare_appender [("_env", VStr "prod")] 1700000000000%Z hello_event
    = Ok (ev', message)
    /\ obj_lookup (properties message) "_env" = Some (Tree (VStr "prod"))
    /\ forall packet,
         encode message = Some packet ->
         (Z.of_nat (length packet) <= 8192)%Z ->
         send_calls
           (trace (snd (app bare_appender 1700000000000%Z hello_event
                          (snd (set_heap (<[0 := [("_env", VStr "prod")]]> (heap bare_world))
                                  bare_world)))))
         = send_calls (trace bare_world) ++ [packet].
Proof.
  apply (@X16_default_fields_live Z JsZ zlib_stored bare_appender 1700000000000%Z hello_event
           (snd (set_heap (<[0 := [("_env", VStr "prod")]]> (heap bare_world)) bare_world))
           [("_env", VStr "prod")] "_env" (VStr "prod")).
  - vm_compute. reflexivity.
  - reflexivity.
  - discriminate.
  - reflexivity.
  - reflexivity.
Defined.

Lemma X17_inherited_level_witness :
  exists ev' packet,
    preparePacket bare_appender [] 1700000000000%Z constructor_event = Ok (ev', packet)
    /\ obj_lookup (properties packet) "level" = Some (Builtin (Object_function "constructor"))
    /\ field_text (number := Z) (Builtin (Object_function "constructor")) = None.
Proof.
  destruct (X17_inherited_level bare_config log4js_levels start_world bare_world bare_appender []
              1700000000000%Z constructor_event bare_appender_constructed)
    as (ev' & packet & b & Hp & Hl & -> & Ht).
  - vm_compute. intuition discriminate.
  - reflexivity.
  - exists ev', packet. split; [exact Hp|]. split; [exact Hl | exact Ht].
Defined.
